(** * stonkAlerts: the drop detector, the notifier and [main]

    A shallow embedding of [stonkAlerts.py].  The three functions of the
    script are translated one by one:

    - [send_message]           (lines 25-54),
    - [create_ticker_message]  (lines 57-121),
    - [main]                   (lines 124-177).

    Modelling decisions, all of them visible in the definitions below:

    - Effects.  Every function runs in the monad [M]: it yields an
      [outcome] (a returned value or a raised Python exception) together
      with the list of [event]s it performed, in program order (log
      records, prints, requests to the market-data provider, HTTP posts).
    - Collaborators.  The market-data provider, the HTTP client, the
      configuration file and the logging set-up are inputs of the model:
      what they answer is a parameter, what the script does with the answer
      is the embedding.
    - Numbers.  Closing prices, the threshold and the drawdown are binary64
      numbers, as in the script: they are the primitive floats of the
      kernel, whose operations round as the hardware does, and line 115
      rounds three times.  Infinities, NaN and the two zeros are values like
      the others; a division by zero yields an infinity or NaN as numpy
      does (with a warning and no exception).  An integer threshold of the
      configuration is taken as the binary64 number it is compared as. *)

From Stdlib Require Import ZArith NArith Lia Bool Floats.
From Stdlib Require Import String Ascii List DecimalString DecimalN.
Import ListNotations.

Local Open Scope string_scope.
Local Open Scope Z_scope.

(** ** Numbers *)

Module PyNum.

(** [rint] of the number [m * 2^e]: the nearest integer, a tie going to
    the even one. *)
Definition rint (m : positive) (e : Z) : Z :=
  match e with
  | Zneg p =>
      let d := Z.pow_pos 2 p in
      let q := Zpos m / d in
      let r := Zpos m mod d in
      match 2 * r ?= d with
      | Lt => q
      | Gt => q + 1
      | Eq => if Z.even q then q else q + 1
      end
  | _ => Zpos m * 2 ^ e
  end.

Definition dec (n : N) : string := NilZero.string_of_uint (N.to_uint n).

(** The decimals of a number of hundredths below 100: a trailing zero is
    dropped, one digit is kept at least. *)
Definition decimals_text (f : N) : string :=
  if (f mod 10 =? 0)%N then dec (f / 10)
  else dec (f / 10) ++ dec (f mod 10).

(** The text Python prints for the float nearest to [n / 100], [n] a
    number of hundredths: the integer part, a point and the decimals. *)
Definition fixed2 (negative : bool) (n : N) : string :=
  (if negative then "-" else EmptyString)
    ++ dec (n / 100) ++ "." ++ decimals_text (n mod 100).

(** [str (round (x, 2))] for a numpy float64 [x], the way ["{1}".format]
    prints it.  numpy rounds to two decimals as [rint (x * 100) / 100]; the
    quotient is the float nearest to a number of hundredths, and the
    shortest text that reads back as this float, which is what is printed,
    is that number of hundredths written out ([fixed2]; from 1e13 on, where
    a float no longer tells hundredths apart, Python prints more digits or
    an exponent, which is not modelled).  A zero keeps its sign, so that a
    negative number that rounds to zero prints as ["-0.0"]. *)
Definition str_round2 (x : float) : string :=
  match Prim2SF (x * 100)%float with
  | S754_nan => "nan"
  | S754_infinity s => if s then "-inf" else "inf"
  | S754_zero s => fixed2 s 0
  | S754_finite s m e => fixed2 s (Z.to_N (rint m e))
  end.








End PyNum.
Import PyNum.

(** ** The order and the signs of the binary64 numbers *)

(** A number that is not NaN has a rank: its sign class, then its exponent
    and its mantissa, both negated for a negative number.  [SFcompare]
    compares ranks lexicographically. *)
Definition rank (x : spec_float) : option (Z * Z * Z) :=
  match x with
  | S754_nan => None
  | S754_zero _ => Some (0, 0, 0)
  | S754_infinity false => Some (2, 0, 0)
  | S754_infinity true => Some (-2, 0, 0)
  | S754_finite false m e => Some (1, e, Zpos m)
  | S754_finite true m e => Some (-1, - e, Zneg m)
  end.

Definition rank_lt (a b : Z * Z * Z) : Prop :=
  let '(a1, a2, a3) := a in
  let '(b1, b2, b3) := b in
  a1 < b1 \/ (a1 = b1 /\ (a2 < b2 \/ (a2 = b2 /\ a3 < b3))).

(** [x < y] and [x <= y] on floats, as propositions. *)
Definition flt (x y : float) : Prop :=
  match rank (Prim2SF x), rank (Prim2SF y) with
  | Some a, Some b => rank_lt a b
  | _, _ => False
  end.

Definition rank_le (a b : Z * Z * Z) : Prop :=
  let '(a1, a2, a3) := a in
  let '(b1, b2, b3) := b in
  a1 < b1 \/ (a1 = b1 /\ (a2 < b2 \/ (a2 = b2 /\ a3 <= b3))).

Definition fle (x y : float) : Prop :=
  match rank (Prim2SF x), rank (Prim2SF y) with
  | Some a, Some b => rank_le a b
  | _, _ => False
  end.

(** [x] is a zero, an infinity or a finite number of sign [s]. *)
Definition has_sign (s : bool) (x : spec_float) : Prop :=
  match x with
  | S754_zero s' | S754_infinity s' | S754_finite s' _ _ => s' = s
  | S754_nan => False
  end.

(** [x] is a zero of either sign, a negative number or minus infinity. *)
Definition nonpositive (x : spec_float) : Prop :=
  match x with
  | S754_zero _ => True
  | S754_infinity s | S754_finite s _ _ => s = true
  | S754_nan => False
  end.


(** ** Exceptions, events and the monad of the script *)

Inductive exn : Type :=
| IndexError
| AssertionError (msg : string).

Inductive outcome (A : Type) : Type :=
| Return (a : A)
| Raise (e : exn).
Arguments Return {A} a.
Arguments Raise {A} e.

Inductive level : Type := DEBUG | ERROR | CRITICAL.

(** The records the script logs or prints, one constructor per format
    string, with the values that are formatted into it. *)
Inductive log_record : Type :=
| EnteringSendMessage (botID chatID message : string)
| ErrorSendingMessage (err : string)
| EnteringCreateTickerMessage
    (tickers : list string) (recentPeak recentTrend : Z) (threshold : float)
| WorkingOnTicker (ticker : string)
| FailedToRetrievePrices (ticker err : string)
| CurrentPriceIsHigher
    (priceToday : float) (recentTrend : Z) (priceTrendAgo : float)
    (ticker : string)
| MaxPriceAndPriceToday (maxPrice priceToday : float)
| PercentDroppedIs (percentDropped : float)
| AttemptingToSendMessage (message : string)
| FailedToReachAPI (err : string)
| FailedToLoadConfig (err : string)
| FailedToSetUpLogging (err : string).

Inductive event : Type :=
| Log (lv : level) (r : log_record)
| Printed (r : log_record)
| OpenConfig
| LoggingSetup (logFileName : string)
| HistoryRequest (ticker : string) (days : Z)
| ProbeRequest
| Post (uri chat_id text : string).

(** The events that reach the market-data provider or the chat endpoint. *)
Definition is_network (e : event) : bool :=
  match e with
  | HistoryRequest _ _ | ProbeRequest | Post _ _ _ => true
  | _ => false
  end.

Definition is_post (e : event) : bool :=
  match e with
  | Post _ _ _ => true
  | _ => false
  end.

Definition M (A : Type) : Type := (outcome A * list event)%type.

Definition ret {A} (a : A) : M A := (Return a, []).

Definition raise {A} (e : exn) : M A := (Raise e, []).

Definition emit (e : event) : M unit := (Return tt, [e]).

Definition bind {A B} (m : M A) (k : A -> M B) : M B :=
  match m with
  | (Return a, t) => let (r, t') := k a in (r, (t ++ t')%list)
  | (Raise e, t) => (Raise e, t)
  end.

Notation "x <- m ;; k" := (bind m (fun x => k))
  (at level 61, m at next level, right associativity).
Notation "m ;; k" := (bind m (fun _ => k))
  (at level 61, right associativity).

(** [if (debug): logger.<level>(...)]. *)
Definition log_if (debug : bool) (lv : level) (r : log_record) : M unit :=
  if debug then emit (Log lv r) else ret tt.

Definition result {A} (m : M A) : outcome A := fst m.
Definition trace {A} (m : M A) : list event := snd m.

(** ** The price history of a ticker *)

(** What [yfinance.Ticker(ticker).history(start=...)] answers: an exception
    (with its [repr]), or a table whose [Close] column is the list of the
    closing prices, the oldest first. *)
Inductive fetch_result : Type :=
| FetchRaised (err : string)
| FetchOk (closes : list float).

Definition TODAY : Z := -1.

(** [history.Close[i]] for an integer [i] on a column indexed by dates:
    pandas falls back on the position, a negative [i] counts from the end,
    and a position outside the column raises [IndexError]. *)
Definition getitem (closes : list float) (i : Z) : M float :=
  let n := Z.of_nat (length closes) in
  let k := if i <? 0 then n + i else i in
  if (0 <=? k) && (k <? n) then
    match nth_error closes (Z.to_nat k) with
    | Some price => ret price
    | None => raise IndexError
    end
  else raise IndexError.

(** Lines 109-110: [if (price > maxPrice): maxPrice = price]. *)
Definition higher (maxPrice price : float) : float :=
  if (maxPrice <? price)%float then price else maxPrice.

(** Lines 106-110: the loop that looks for the highest price, from
    [maxPrice = 0] on. *)
Definition max_price (closes : list float) : float :=
  fold_left higher closes 0%float.

(** Line 115. *)
Definition percent_dropped (priceToday maxPrice : float) : float :=
  ((priceToday - maxPrice) / maxPrice * 100)%float.

Definition newline : string := String "010" EmptyString.

(** Line 119: the line of a reported ticker,
    ["{0} dropped {1}%\n".format(ticker, round(-percentDropped, 2))]. *)
Definition dropped_line (ticker : string) (percentDropped : float) : string :=
  ticker ++ " dropped " ++ str_round2 (- percentDropped)%float ++ "%"
         ++ newline.

(** ** The drop detector *)

Section Detector.

Variable yf_history : string -> Z -> fetch_result.
Variables recentPeak recentTrend : Z.
Variable precentDroppedThreshold : float.
Variable debug : bool.

(** The body of the loop over the tickers (lines 88-119): the message
    after the ticker has been worked on.  A [continue] leaves the message
    as it was. *)
Definition ticker_body (ticker : string) (message : string) : M string :=
  log_if debug DEBUG (WorkingOnTicker ticker) ;;
  emit (HistoryRequest ticker recentPeak) ;;
  match yf_history ticker recentPeak with
  | FetchRaised err =>
      log_if debug ERROR (FailedToRetrievePrices ticker err) ;;
      ret message
  | FetchOk closes =>
      priceTrendAgo <- getitem closes (- recentTrend) ;;
      priceNow <- getitem closes TODAY ;;
      if (priceTrendAgo <? priceNow)%float then
        log_if debug DEBUG
          (CurrentPriceIsHigher priceNow recentTrend priceTrendAgo ticker) ;;
        ret message
      else
        let maxPrice := max_price closes in
        priceToday <- getitem closes (-1) ;;
        log_if debug DEBUG (MaxPriceAndPriceToday maxPrice priceToday) ;;
        let percentDropped := percent_dropped priceToday maxPrice in
        log_if debug DEBUG (PercentDroppedIs percentDropped) ;;
        if (percentDropped <? - precentDroppedThreshold)%float then
          ret (message ++ dropped_line ticker percentDropped)
        else
          ret message
  end.

Fixpoint ticker_loop (tickers : list string) (message : string) : M string :=
  match tickers with
  | [] => ret message
  | ticker :: rest =>
      message' <- ticker_body ticker message ;;
      ticker_loop rest message'
  end.

Definition create_ticker_message (tickers : list string) : M string :=
  log_if debug DEBUG
    (EnteringCreateTickerMessage
       tickers recentPeak recentTrend precentDroppedThreshold) ;;
  ticker_loop tickers EmptyString.

End Detector.

(** ** The notifier *)

Definition OK : Z := 200.

(** What [requests.post] does: it raises (with the [repr] of the exception)
    or it answers with a status code. *)
Inductive post_result : Type :=
| PostRaised (err : string)
| PostStatus (status_code : Z).

Section Notifier.

Variable requests_post : string -> string -> string -> post_result.

Definition send_message (botID chatID message : string) (debug : bool)
  : M bool :=
  log_if debug DEBUG (EnteringSendMessage botID chatID message) ;;
  let uri := "https://api.telegram.org/bot" ++ botID ++ "/sendMessage" in
  emit (Post uri chatID message) ;;
  match requests_post uri chatID message with
  | PostStatus status_code =>
      let messageSent := if status_code =? OK then true else false in
      ret messageSent
  | PostRaised err =>
      let messageSent := false in
      log_if debug ERROR (ErrorSendingMessage err) ;;
      ret messageSent
  end.

End Notifier.

(** ** [main] *)

Record config : Type := {
  tickers : list string;
  recentPeak : Z;
  recentTrend : Z;
  percentDropped : float;
  telegramBotId : string;
  telegramChatId : string;
  loggingEnabled : bool;
  logFileName : string
}.

(** The surroundings of one run.  [config_json] is what opening and parsing
    [config.json] gives (the [repr] of the exception, or the configuration
    with all its keys); [logging_setup] and [yf_probe] are [Some] of the
    [repr] of the exception when the logging set-up, respectively
    [assert (yfinance.Ticker("SPY"))], raises. *)
Record world : Type := {
  config_json : string + config;
  logging_setup : option string;
  yf_history : string -> Z -> fetch_result;
  yf_probe : option string;
  requests_post : string -> string -> string -> post_result
}.

Definition recentPeak_message : string :=
  "RecentPeak must be greater than or equal to recentTrend".

(** [main], lines 124-177.  The script ends with the call [main()] (line
    179), which drops the value returned: the status of a run is, here,
    the value [main] returns or the exception it raises. *)
Definition main (w : world) : M Z :=
  emit OpenConfig ;;
  match config_json w with
  | inl err => emit (Printed (FailedToLoadConfig err)) ;; ret (-1)
  | inr config =>
      let debug := loggingEnabled config in
      setup <- (if debug then
                  emit (LoggingSetup (logFileName config)) ;;
                  ret (logging_setup w)
                else ret None) ;;
      match setup with
      | Some err => emit (Printed (FailedToSetUpLogging err)) ;; ret (-1)
      | None =>
          (if recentPeak config >=? recentTrend config then ret tt
           else raise (AssertionError recentPeak_message)) ;;
          message <- create_ticker_message (yf_history w)
                       (recentPeak config) (recentTrend config)
                       (percentDropped config) debug (tickers config) ;;
          if negb (message =? EmptyString)%string then
            log_if debug DEBUG (AttemptingToSendMessage message) ;;
            sent <- send_message (requests_post w)
                      (telegramBotId config) (telegramChatId config)
                      message debug ;;
            if sent then ret 0 else ret (-1)
          else
            emit ProbeRequest ;;
            match yf_probe w with
            | Some err =>
                log_if debug CRITICAL (FailedToReachAPI err) ;;
                send_message (requests_post w)
                  (telegramBotId config) (telegramChatId config)
                  ("Failed to reach Yahoo Finance API. Error: " ++ err)
                  debug ;;
                ret (-1)
            | None => ret 0
            end
      end
  end.

(** Line 179, [main()]: the value [main] returns is dropped.  The
    interpreter ends with the status 0 when the script runs to its end, and
    with the status 1 after an exception that nothing has caught. *)
Definition script (w : world) : M unit := main w ;; ret tt.

Definition exit_status (w : world) : Z :=
  match result (script w) with
  | Return _ => 0
  | Raise _ => 1
  end.

(** ** Sample runs

    Answers of the collaborators that the examples below are run on. *)

(** [TICKER] fell from 100 to 80; [RISING] lost 40% of its peak and has
    risen since the day before; [SHORT] has the five closing prices of a
    week; [EDGE] and [TIE] fell by 14% and by 14.375%, up to the rounding
    of line 115; the provider fails on every other symbol. *)
Definition sample_history (ticker : string) (days : Z) : fetch_result :=
  if (ticker =? "TICKER")%string then FetchOk [100; 90; 80]%float
  else if (ticker =? "RISING")%string then FetchOk [100; 50; 60]%float
  else if (ticker =? "SHORT")%string then FetchOk [50; 49; 48; 47; 46]%float
  else if (ticker =? "EDGE")%string then FetchOk [100; 86]%float
  else if (ticker =? "TIE")%string then FetchOk [160; 137]%float
  else FetchRaised "ConnectionError()".

Definition sample_post (status_code : Z) (uri chat_id text : string)
  : post_result :=
  PostStatus status_code.

Definition sample_config (symbols : list string) (peak trend : Z) : config :=
  {| tickers := symbols;
     recentPeak := peak;
     recentTrend := trend;
     percentDropped := 15;
     telegramBotId := "bot";
     telegramChatId := "chat";
     loggingEnabled := false;
     logFileName := "stonks.log" |}.

Definition sample_world (symbols : list string) (peak trend : Z)
    (probe : option string) (status_code : Z) : world :=
  {| config_json := inr (sample_config symbols peak trend);
     logging_setup := None;
     yf_history := sample_history;
     yf_probe := probe;
     requests_post := sample_post status_code |}.

(** The concatenation of the lines of a message. *)
Fixpoint concat_lines (lines : list string) : string :=
  match lines with
  | [] => EmptyString
  | l :: rest => l ++ concat_lines rest
  end.

(** The number of HTTP posts among the events of a run. *)
Definition posts (t : list event) : nat := List.length (filter is_post t).

(** ** Views of a run *)

(** The events of a run that reach the network, in program order. *)
Definition network (t : list event) : list event := filter is_network t.

(** The events that touch the log: a log record, or the set-up of the log
    file. *)
Definition is_log (e : event) : bool :=
  match e with
  | Log _ _ | LoggingSetup _ => true
  | _ => false
  end.

Definition logs (t : list event) : list event := filter is_log t.

(** The position [i] is inside the column: [-n <= i < n] for a column of
    [n] prices. *)
Definition in_column (closes : list float) (i : Z) : bool :=
  let n := Z.of_nat (List.length closes) in
  (- n <=? i) && (i <? n).

(** The ticker gets past line 100: its fetch raised (and it is skipped), or
    both positions that line 100 reads are inside the column. *)
Definition survives (yf_history : string -> Z -> fetch_result)
    (recentPeak recentTrend : Z) (ticker : string) : bool :=
  match yf_history ticker recentPeak with
  | FetchRaised _ => true
  | FetchOk closes =>
      in_column closes (- recentTrend) && in_column closes TODAY
  end.

(** The request of line 93 for a ticker. *)
Definition history_request (recentPeak : Z) (ticker : string) : event :=
  HistoryRequest ticker recentPeak.

(** [send_message]'s address for a bot. *)
Definition bot_uri (botID : string) : string :=
  "https://api.telegram.org/bot" ++ botID ++ "/sendMessage".

(** A provider and a configuration with the logging on, for the examples:
    the symbol [EMPTY] is unknown to the provider, which answers with an
    empty table. *)
Definition sample_history_with_empty (ticker : string) (days : Z)
  : fetch_result :=
  if (ticker =? "EMPTY")%string then FetchOk []
  else sample_history ticker days.

Definition sample_config_logging (symbols : list string) (peak trend : Z)
  : config :=
  {| tickers := symbols;
     recentPeak := peak;
     recentTrend := trend;
     percentDropped := 15;
     telegramBotId := "bot";
     telegramChatId := "chat";
     loggingEnabled := true;
     logFileName := "stonks.log" |}.

Definition sample_world_logging (symbols : list string) (peak trend : Z)
    (probe : option string) (status_code : Z) : world :=
  {| config_json := inr (sample_config_logging symbols peak trend);
     logging_setup := None;
     yf_history := sample_history;
     yf_probe := probe;
     requests_post := sample_post status_code |}.

(** ** Magnitudes

    [m * 2^e] in units of [2^-2200], an integer for every exponent that a
    binary64 operation works with. *)
Definition scaled (m e : Z) : Z := m * 2 ^ (e + 2200).

(** The bits that a shift has dropped are not all zero. *)
Definition inexact (mrs : shr_record) : Prop := shr_r mrs || shr_s mrs = true.

(** [y] is [x] shifted right by [n] positions. *)
Definition shifted (n : Z) (x y : shr_record) : Prop :=
  0 <= shr_m y
  /\ shr_m y * 2 ^ n <= shr_m x < (shr_m y + 1) * 2 ^ n
  /\ (inexact y -> inexact x \/ shr_m y * 2 ^ n < shr_m x).

(** [x] is a zero or a negative number of magnitude [mb * 2^eb] at most. *)
Definition within (x : spec_float) (mb : positive) (eb : Z) : Prop :=
  match x with
  | S754_zero _ => True
  | S754_finite true m e => scaled (Zpos m) e <= scaled (Zpos mb) eb
  | _ => False
  end.

(** * Properties *)


(** ** The order of the binary64 numbers *)

Lemma SFcompare_rank (x y : spec_float) :
  SFcompare x y =
  match rank x, rank y with
  | Some (a1, a2, a3), Some (b1, b2, b3) =>
      Some match a1 ?= b1 with
           | Eq => match a2 ?= b2 with
                   | Eq => a3 ?= b3
                   | c => c
                   end
           | c => c
           end
  | _, _ => None
  end.
Proof.
  destruct x as [sx|sx| |sx mx ex]; destruct y as [sy|sy| |sy my ey];
    try destruct sx; try destruct sy; try reflexivity.
  cbn [SFcompare rank]. rewrite Z.compare_opp.
  change (Z.neg mx ?= Z.neg my) with (CompOpp (Pos.compare mx my)).
  change (-1 ?= -1) with Eq. cbv iota.
  rewrite (Z.compare_antisym ey ex).
  destruct (ey ?= ex); reflexivity.
Qed.

Lemma ltb_flt (x y : float) : (x <? y)%float = true <-> flt x y.
Proof.
  rewrite ltb_spec. unfold SFltb, flt. rewrite SFcompare_rank.
  destruct (rank (Prim2SF x)) as [[[a1 a2] a3]|];
    destruct (rank (Prim2SF y)) as [[[b1 b2] b3]|]; cbn [rank_lt];
    try (split; [discriminate | intros []]).
  destruct (Z.compare_spec a1 b1) as [E1|L1|G1];
    destruct (Z.compare_spec a2 b2) as [E2|L2|G2];
    destruct (Z.compare_spec a3 b3) as [E3|L3|G3]; split; intro Hx;
    try reflexivity; try discriminate; try lia.
Qed.

Lemma leb_fle (x y : float) : (x <=? y)%float = true <-> fle x y.
Proof.
  rewrite leb_spec. unfold SFleb, fle. rewrite SFcompare_rank.
  destruct (rank (Prim2SF x)) as [[[a1 a2] a3]|];
    destruct (rank (Prim2SF y)) as [[[b1 b2] b3]|]; cbn [rank_le];
    try (split; [discriminate | intros []]).
  destruct (Z.compare_spec a1 b1) as [E1|L1|G1];
    destruct (Z.compare_spec a2 b2) as [E2|L2|G2];
    destruct (Z.compare_spec a3 b3) as [E3|L3|G3]; split; intro Hx;
    try reflexivity; try discriminate; try lia.
Qed.

Lemma ltb_false_iff (x y : float) : (x <? y)%float = false <-> ~ flt x y.
Proof.
  rewrite <- ltb_flt. destruct (x <? y)%float; split; congruence.
Qed.

Lemma leb_false_iff (x y : float) : (x <=? y)%float = false <-> ~ fle x y.
Proof.
  rewrite <- leb_fle. destruct (x <=? y)%float; split; congruence.
Qed.

Ltac rank_order :=
  unfold flt, fle, not;
  repeat match goal with
         | |- context [Prim2SF ?x] => generalize (Prim2SF x); intro
         end;
  intros;
  repeat match goal with
         | s : spec_float |- _ => destruct s as [[]|[]| |[] ? ?]
         end;
  cbn [rank rank_lt rank_le] in *; try contradiction; try lia.

Lemma flt_irrefl (x : float) : ~ flt x x.
Proof. rank_order. Qed.

Lemma flt_trans (x y z : float) : flt x y -> flt y z -> flt x z.
Proof. rank_order. Qed.

Lemma fle_flt_trans (x y z : float) : fle x y -> flt y z -> flt x z.
Proof. rank_order. Qed.

Lemma flt_fle_trans (x y z : float) : flt x y -> fle y z -> flt x z.
Proof. rank_order. Qed.

Lemma fle_trans (x y z : float) : fle x y -> fle y z -> fle x z.
Proof. rank_order. Qed.

Lemma flt_fle (x y : float) : flt x y -> fle x y.
Proof. rank_order. Qed.

Lemma flt_not_fle (x y : float) : flt x y -> ~ fle y x.
Proof. rank_order. Qed.

(** Two numbers, neither of them NaN, are comparable. *)
Lemma not_flt_fle (x y : float) :
  Prim2SF x <> S754_nan -> Prim2SF y <> S754_nan -> ~ flt x y -> fle y x.
Proof. rank_order; congruence. Qed.

Lemma flt_number_l (x y : float) : flt x y -> Prim2SF x <> S754_nan.
Proof. rank_order; discriminate. Qed.

Lemma flt_number_r (x y : float) : flt x y -> Prim2SF y <> S754_nan.
Proof. rank_order; discriminate. Qed.

Lemma fle_opp (x y : float) : fle x y -> fle (- y) (- x).
Proof.
  unfold fle. rewrite !opp_spec.
  generalize (Prim2SF x) (Prim2SF y). intros sx sy.
  destruct sx as [[]|[]| |[] ? ?]; destruct sy as [[]|[]| |[] ? ?];
    cbn [rank rank_le SFopp negb]; try contradiction; try lia.
Qed.

(** ** The sign of a rounded result *)

Lemma iter_pos_invariant {A} (P : A -> Prop) (f : A -> A) :
  (forall x, P x -> P (f x)) ->
  forall p x, P x -> P (iter_pos f p x).
Proof.
  intros Hf. induction p as [p IH|p IH|]; intros x Hx; cbn.
  - apply IH, IH, Hf, Hx.
  - apply IH, IH, Hx.
  - apply Hf, Hx.
Qed.

Lemma shr_1_nonneg mrs : 0 <= shr_m mrs -> 0 <= shr_m (shr_1 mrs).
Proof.
  destruct mrs as [m r s]. cbn [shr_m]. intro Hm.
  destruct m as [|[p|p|]|p]; cbn; lia.
Qed.

Lemma shr_fexp_nonneg m e l :
  0 <= m -> 0 <= shr_m (fst (shr_fexp prec emax m e l)).
Proof.
  intro Hm. unfold shr_fexp, shr.
  assert (H0 : 0 <= shr_m (shr_record_of_loc m l))
    by (destruct l as [|[]]; exact Hm).
  destruct (fexp prec emax (Zdigits2 m + e) - e) as [|p|p]; cbn [fst];
    try exact H0.
  apply iter_pos_invariant; [apply shr_1_nonneg | exact H0].
Qed.

Lemma round_nearest_even_nonneg m l :
  0 <= m -> 0 <= round_nearest_even m l.
Proof.
  intro Hm. destruct l as [|[]]; cbn; try lia.
  destruct (Z.even m); lia.
Qed.

Lemma binary_round_aux_sign s m e l :
  0 <= m -> has_sign s (binary_round_aux prec emax s m e l).
Proof.
  intro Hm. unfold binary_round_aux.
  pose proof (shr_fexp_nonneg m e l Hm) as H1.
  destruct (shr_fexp prec emax m e l) as [mrs' e']. cbn [fst] in H1.
  pose proof (shr_fexp_nonneg
                (round_nearest_even (shr_m mrs') (loc_of_shr_record mrs'))
                e' loc_Exact (round_nearest_even_nonneg _ _ H1)) as H2.
  destruct (shr_fexp prec emax _ e' loc_Exact) as [mrs'' e''].
  cbn [fst] in H2.
  destruct (shr_m mrs'') as [|p|p]; [reflexivity| |lia].
  destruct (e'' <=? emax - prec); reflexivity.
Qed.

Lemma binary_round_sign s m e : has_sign s (binary_round prec emax s m e).
Proof.
  unfold binary_round. destruct (shl_align m e _) as [mz ez].
  now apply binary_round_aux_sign.
Qed.

Lemma has_sign_nonpositive x : has_sign true x -> nonpositive x.
Proof. destruct x; cbn; auto. Qed.

(** Multiplying and dividing by a positive finite number keeps the sign. *)
Lemma SFmul_sign s x m e :
  has_sign s x ->
  has_sign s (SFmul prec emax x (S754_finite false m e)).
Proof.
  destruct x as [sx|sx| |sx mx ex]; cbn [has_sign SFmul]; try easy.
  - intros <-. now rewrite xorb_false_r.
  - intros <-. now rewrite xorb_false_r.
  - intros <-. rewrite xorb_false_r.
    now apply binary_round_aux_sign.
Qed.

Lemma SFdiv_sign s x m e :
  has_sign s x ->
  has_sign s (SFdiv prec emax x (S754_finite false m e)).
Proof.
  destruct x as [sx|sx| |sx mx ex]; cbn [has_sign SFdiv]; try easy.
  - intros <-. now rewrite xorb_false_r.
  - intros <-. now rewrite xorb_false_r.
  - intros <-.
    destruct (SFdiv_core_binary prec emax (Z.pos mx) ex (Z.pos m) e)
      as [[mz ez] lz] eqn:Hcore.
    rewrite xorb_false_r.
    apply binary_round_aux_sign.
    unfold SFdiv_core_binary in Hcore. cbv zeta in Hcore.
    match type of Hcore with
    | (let '(q, r) := Z.div_eucl ?a ?b in _) = _ =>
        assert (Ha : 0 <= a);
        [| pose proof (Z.div_pos a b Ha ltac:(lia)) as Hq;
           unfold Z.div in Hq; destruct (Z.div_eucl a b) as [q r];
           injection Hcore as <- _ _; exact Hq ]
    end.
    destruct (ex - e - _) as [|p|p]; try lia.
    apply Z.shiftl_nonneg. lia.
Qed.

(** ** Finite numbers *)

Lemma SFeqb_refl x : x <> S754_nan -> SFeqb x x = true.
Proof.
  intro Hx. unfold SFeqb. rewrite SFcompare_rank.
  destruct x as [[]|[]| |[] m e]; cbn [rank]; try reflexivity;
    try congruence; now rewrite !Z.compare_refl.
Qed.

Lemma is_finite_spec (x : float) :
  is_finite x = true ->
  match Prim2SF x with
  | S754_zero _ | S754_finite _ _ _ => True
  | _ => False
  end.
Proof.
  unfold is_finite, is_nan, is_infinity.
  rewrite !FloatAxioms.eqb_spec, abs_spec.
  change (Prim2SF infinity) with (S754_infinity false).
  destruct (Prim2SF x) as [s|[]| |s m e]; cbn; auto; discriminate.
Qed.

Lemma is_finite_number (x : float) :
  is_finite x = true -> Prim2SF x <> S754_nan.
Proof.
  intro H. apply is_finite_spec in H.
  destruct (Prim2SF x); [discriminate | contradiction | contradiction
                        | discriminate].
Qed.

(** ** The mantissa of a binary64 number *)

Lemma digits2_pos_size m : digits2_pos m = Pos.size m.
Proof. induction m as [m IH|m IH|]; cbn; now rewrite ?IH. Qed.

Lemma digits2_pos_bounds m :
  Zpos m < 2 ^ Zpos (digits2_pos m)
  /\ 2 ^ Zpos (digits2_pos m) <= 2 * Zpos m.
Proof.
  rewrite digits2_pos_size. split.
  - pose proof (Pos.size_gt m) as H.
    apply Pos2Z.pos_lt_pos in H. now rewrite Pos2Z.inj_pow in H.
  - pose proof (Pos.size_le m) as H.
    apply Pos2Z.pos_le_pos in H. now rewrite Pos2Z.inj_pow in H.
Qed.

Lemma valid_binary_digits s m e :
  valid_binary (S754_finite s m e) = true ->
  Zpos (digits2_pos m) <= 53
  /\ (-1074 < e -> Zpos (digits2_pos m) = 53)
  /\ -1074 <= e.
Proof.
  unfold SpecFloat.valid_binary, bounded, canonical_mantissa, fexp, emin.
  change prec with 53. change emax with 1024.
  intro H. apply andb_true_iff in H. destruct H as [H _].
  apply Z.eqb_eq in H. lia.
Qed.

Lemma shl_align_fst m e e' :
  e' <= e -> Zpos (fst (shl_align m e e')) = Zpos m * 2 ^ (e - e').
Proof.
  intro Hle. unfold shl_align.
  destruct (e' - e) as [|p|p] eqn:E; cbn [fst]; try lia.
  - replace (e - e') with 0 by lia. lia.
  - replace (e - e') with (Zpos p) by lia.
    change (Pos.iter xO m p) with (shift_pos p m).
    rewrite shift_pos_correct. rewrite Z.pow_pos_fold. lia.
Qed.

(** For two positive binary64 numbers the order of the ranks is the order
    of the values: the mantissas, brought to the lower exponent, compare as
    the numbers do. *)
Lemma aligned_mantissas_le mx ex my ey :
  valid_binary (S754_finite false mx ex) = true ->
  valid_binary (S754_finite false my ey) = true ->
  rank_le (1, ex, Zpos mx) (1, ey, Zpos my) ->
  Zpos (fst (shl_align mx ex (Z.min ex ey)))
  <= Zpos (fst (shl_align my ey (Z.min ex ey))).
Proof.
  intros Hvx Hvy Hle. cbn [rank_le] in Hle.
  rewrite !shl_align_fst by lia.
  destruct (valid_binary_digits _ _ _ Hvx) as [Hdx [_ Hex]].
  destruct (valid_binary_digits _ _ _ Hvy) as [_ [Hdy _]].
  destruct (Z.lt_trichotomy ex ey) as [Hlt|[Heq|Hgt]]; [| |lia].
  - rewrite Z.min_l by lia. rewrite Z.sub_diag, Z.mul_1_r.
    specialize (Hdy ltac:(lia)).
    destruct (digits2_pos_bounds mx) as [Hx _].
    destruct (digits2_pos_bounds my) as [_ Hy].
    rewrite Hdy in Hy.
    assert (Hpow : 2 ^ Zpos (digits2_pos mx) <= 2 ^ 53)
      by (apply Z.pow_le_mono_r; lia).
    assert (Hk : 2 ^ 1 <= 2 ^ (ey - ex))
      by (apply Z.pow_le_mono_r; lia).
    nia.
  - subst ey. rewrite Z.min_id, Z.sub_diag, !Z.mul_1_r. lia.
Qed.

(** ** The sign of a drawdown *)

Lemma SFsub_nonpositive x my ey :
  valid_binary x = true ->
  valid_binary (S754_finite false my ey) = true ->
  match x with S754_zero _ | S754_finite _ _ _ => True | _ => False end ->
  match rank x with
  | Some r => rank_le r (1, ey, Zpos my)
  | None => False
  end ->
  nonpositive (SFsub prec emax x (S754_finite false my ey)).
Proof.
  intros Hvx Hvy Hfin Hle.
  destruct x as [s|s| |[] mx ex]; try contradiction.
  - reflexivity.
  - cbn [SFsub cond_Zopp]. cbv zeta.
    set (a := fst (shl_align mx ex (Z.min ex ey))).
    set (b := fst (shl_align my ey (Z.min ex ey))).
    change (- Zpos a - Zpos b) with (Zneg (a + b)).
    apply has_sign_nonpositive. apply binary_round_sign.
  - cbn [SFsub cond_Zopp]. cbv zeta.
    pose proof (aligned_mantissas_le mx ex my ey Hvx Hvy Hle) as Hab.
    set (a := fst (shl_align mx ex (Z.min ex ey))) in *.
    set (b := fst (shl_align my ey (Z.min ex ey))) in *.
    destruct (Zpos a - Zpos b) as [|p|p] eqn:E; cbn [binary_normalize].
    + exact I.
    + lia.
    + apply has_sign_nonpositive. apply binary_round_sign.
Qed.

Lemma SFdiv_nonpositive x m e :
  nonpositive x -> nonpositive (SFdiv prec emax x (S754_finite false m e)).
Proof.
  destruct x as [s|s| |s mx ex]; cbn [nonpositive]; try easy.
  - intros ->. apply has_sign_nonpositive, SFdiv_sign. reflexivity.
  - intros ->. apply has_sign_nonpositive, SFdiv_sign. reflexivity.
Qed.

Lemma SFmul_nonpositive x m e :
  nonpositive x -> nonpositive (SFmul prec emax x (S754_finite false m e)).
Proof.
  destruct x as [s|s| |s mx ex]; cbn [nonpositive]; try easy.
  - intros ->. apply has_sign_nonpositive, SFmul_sign. reflexivity.
  - intros ->. apply has_sign_nonpositive, SFmul_sign. reflexivity.
Qed.

Lemma nonpositive_fle_zero (x : float) :
  nonpositive (Prim2SF x) -> fle x 0.
Proof.
  unfold fle. change (Prim2SF 0) with (S754_zero false).
  destruct (Prim2SF x) as [s|s| |s m e]; cbn [nonpositive rank];
    try contradiction; try (intros ->); cbn [rank rank_le]; lia.
Qed.

(** A positive finite number. *)
Lemma positive_finite (x : float) :
  is_finite x = true -> flt 0 x ->
  exists m e, Prim2SF x = S754_finite false m e.
Proof.
  intros Hfin Hpos. apply is_finite_spec in Hfin.
  unfold flt in Hpos. change (Prim2SF 0) with (S754_zero false) in Hpos.
  destruct (Prim2SF x) as [s|s| |[] m e]; cbn in Hpos; try contradiction;
    try lia.
  now exists m, e.
Qed.

(** Line 115 on a finite price that is not above a positive finite highest
    price: the drawdown is not positive. *)
Lemma percent_dropped_nonpositive (priceToday maxPrice : float) :
  is_finite priceToday = true ->
  is_finite maxPrice = true ->
  flt 0 maxPrice ->
  fle priceToday maxPrice ->
  fle (percent_dropped priceToday maxPrice) 0.
Proof.
  intros Hp Hm Hpos Hle.
  apply nonpositive_fle_zero. unfold percent_dropped.
  rewrite mul_spec, div_spec, sub_spec.
  destruct (positive_finite _ Hm Hpos) as [mm [em Em]].
  pose proof (Prim2SF_valid priceToday) as Hvp.
  pose proof (Prim2SF_valid maxPrice) as Hvm.
  apply is_finite_spec in Hp. unfold fle in Hle.
  rewrite Em in *.
  change (Prim2SF 100) with (S754_finite false 7036874417766400 (-46)).
  apply SFmul_nonpositive, SFdiv_nonpositive.
  apply SFsub_nonpositive; assumption.
Qed.

(** ** Printing and reading back *)













(** ** Strings *)

Lemma append_empty_r (s : string) : s ++ EmptyString = s.
Proof. induction s as [|c s IH]; simpl; [reflexivity | now rewrite IH]. Qed.

Lemma append_assoc (s1 s2 s3 : string) : (s1 ++ s2) ++ s3 = s1 ++ (s2 ++ s3).
Proof. induction s1 as [|c s1 IH]; simpl; [reflexivity | now rewrite IH]. Qed.

(** ** The monad *)

Lemma result_bind {A B} (m : M A) (k : A -> M B) :
  result (bind m k) =
  match result m with
  | Return a => result (k a)
  | Raise e => Raise e
  end.
Proof.
  destruct m as [[a|e] t]; simpl; [|reflexivity].
  destruct (k a); reflexivity.
Qed.

Lemma trace_bind {A B} (m : M A) (k : A -> M B) :
  trace (bind m k) =
  (trace m ++ match result m with
              | Return a => trace (k a)
              | Raise _ => []
              end)%list.
Proof.
  destruct m as [[a|e] t]; simpl.
  - destruct (k a); reflexivity.
  - now rewrite app_nil_r.
Qed.

Lemma posts_app (t1 t2 : list event) :
  posts (t1 ++ t2) = (posts t1 + posts t2)%nat.
Proof. unfold posts. now rewrite filter_app, length_app. Qed.

Lemma result_log_if debug lv r : result (log_if debug lv r) = Return tt.
Proof. now destruct debug. Qed.

(** ** Indexing the closing prices *)

Lemma trace_getitem closes i : trace (getitem closes i) = [].
Proof.
  unfold getitem.
  destruct (_ && _); [|reflexivity].
  destruct (nth_error _ _); reflexivity.
Qed.

Lemma getitem_In closes i price :
  result (getitem closes i) = Return price -> In price closes.
Proof.
  unfold getitem.
  destruct (_ && _); [|discriminate].
  destruct (nth_error _ _) eqn:E; [|discriminate].
  simpl. intros [= <-]. eapply nth_error_In; eassumption.
Qed.

(** The last price of a column that is not empty is at index [-1]. *)
Lemma getitem_today closes :
  closes <> [] -> getitem closes (-1) = ret (List.last closes 0%float).
Proof.
  intros Hne. unfold getitem.
  destruct (exists_last Hne) as [front [price ->]].
  rewrite last_last, length_app. simpl List.length.
  replace (-1 <? 0) with true by reflexivity.
  replace (Z.of_nat (List.length front + 1) + -1)
    with (Z.of_nat (List.length front)) by lia.
  assert (Hin : (0 <=? Z.of_nat (List.length front))
                && (Z.of_nat (List.length front)
                    <? Z.of_nat (List.length front + 1)) = true).
  { apply andb_true_iff; split; [apply Z.leb_le | apply Z.ltb_lt]; lia. }
  rewrite Hin.
  rewrite Nat2Z.id, nth_error_app2, Nat.sub_diag by lia.
  reflexivity.
Qed.

(** A column with fewer than [recentTrend] prices has no price
    [recentTrend] positions from its end. *)
Lemma getitem_short closes recentTrend :
  0 < recentTrend -> Z.of_nat (List.length closes) < recentTrend ->
  getitem closes (- recentTrend) = raise IndexError.
Proof.
  intros Hpos Hlen. unfold getitem.
  replace (- recentTrend <? 0) with true by (symmetry; apply Z.ltb_lt; lia).
  replace (0 <=? _) with false by (symmetry; apply Z.leb_gt; lia).
  reflexivity.
Qed.

Lemma getitem_empty i : getitem [] i = raise IndexError.
Proof.
  unfold getitem. simpl List.length.
  destruct (i <? 0) eqn:E.
  - replace (0 <=? _) with false; [reflexivity|].
    symmetry. apply Z.leb_gt. apply Z.ltb_lt in E. lia.
  - change (Z.of_nat 0) with 0. now rewrite E, andb_false_r.
Qed.

(** ** The highest price *)

Section MaxPrice.

Lemma fle_refl (x : float) : Prim2SF x <> S754_nan -> fle x x.
Proof. rank_order; congruence. Qed.

Lemma higher_number maxPrice price :
  Prim2SF maxPrice <> S754_nan -> Prim2SF (higher maxPrice price) <> S754_nan.
Proof.
  intro Hm. unfold higher. destruct (maxPrice <? price)%float eqn:E.
  - apply ltb_flt in E. eapply flt_number_r. eassumption.
  - exact Hm.
Qed.

Lemma fle_higher maxPrice price :
  Prim2SF maxPrice <> S754_nan -> fle maxPrice (higher maxPrice price).
Proof.
  intro Hm. unfold higher. destruct (maxPrice <? price)%float eqn:E.
  - apply ltb_flt in E. now apply flt_fle.
  - now apply fle_refl.
Qed.

Lemma fold_higher_number closes : forall m,
  Prim2SF m <> S754_nan -> Prim2SF (fold_left higher closes m) <> S754_nan.
Proof.
  induction closes as [|p closes IH]; intros m Hm; cbn.
  - exact Hm.
  - apply IH. now apply higher_number.
Qed.

Lemma fold_higher_ge_init closes : forall m,
  Prim2SF m <> S754_nan -> fle m (fold_left higher closes m).
Proof.
  induction closes as [|p closes IH]; intros m Hm; cbn.
  - now apply fle_refl.
  - eapply fle_trans; [now apply fle_higher|].
    apply IH. now apply higher_number.
Qed.

(** No price is above the highest price. *)
Lemma fold_higher_not_below closes : forall m,
  Prim2SF m <> S754_nan ->
  Forall (fun p => ~ flt (fold_left higher closes m) p) closes.
Proof.
  induction closes as [|p closes IH]; intros m Hm; cbn; constructor.
  - intro Habove.
    pose proof (fold_higher_ge_init closes (higher m p)
                  (higher_number m p Hm)) as Hge.
    pose proof (fle_flt_trans _ _ _ Hge Habove) as Hlt.
    unfold higher in Hlt. destruct (m <? p)%float eqn:E.
    + exact (flt_irrefl _ Hlt).
    + apply ltb_false_iff in E. contradiction.
  - apply IH. now apply higher_number.
Qed.

Lemma fold_higher_In closes : forall m,
  fold_left higher closes m = m \/ In (fold_left higher closes m) closes.
Proof.
  induction closes as [|p closes IH]; intro m; simpl.
  - now left.
  - destruct (IH (higher m p)) as [E|I].
    + rewrite E. unfold higher. destruct (m <? p)%float; auto.
    + auto.
Qed.

Lemma zero_number : Prim2SF 0 <> S754_nan.
Proof. discriminate. Qed.

Lemma max_price_number closes : Prim2SF (max_price closes) <> S754_nan.
Proof. apply fold_higher_number, zero_number. Qed.

Lemma max_price_not_below closes :
  Forall (fun p => (max_price closes <? p)%float = false) closes.
Proof.
  eapply Forall_impl; [|apply (fold_higher_not_below closes 0 zero_number)].
  intros p Hp. now apply ltb_false_iff.
Qed.

(** A price that is a number is at most the highest price. *)
Lemma max_price_upper_bound closes price :
  In price closes -> Prim2SF price <> S754_nan ->
  (price <=? max_price closes)%float = true.
Proof.
  intros Hin Hnum. apply leb_fle.
  apply not_flt_fle; [apply max_price_number | exact Hnum |].
  pose proof (fold_higher_not_below closes 0 zero_number) as Hall.
  rewrite Forall_forall in Hall. now apply Hall.
Qed.

Lemma max_price_positive closes :
  Exists (fun p => (0 <? p)%float = true) closes ->
  (0 <? max_price closes)%float = true.
Proof.
  intro Hex. apply Exists_exists in Hex. destruct Hex as [p [Hin Hp]].
  apply ltb_flt in Hp. apply ltb_flt.
  eapply flt_fle_trans; [exact Hp|].
  apply leb_fle. apply max_price_upper_bound; [exact Hin|].
  eapply flt_number_r. eassumption.
Qed.

Lemma max_price_In closes :
  Exists (fun p => (0 <? p)%float = true) closes ->
  In (max_price closes) closes.
Proof.
  intro Hex. pose proof (max_price_positive _ Hex) as Hpos.
  destruct (fold_higher_In closes 0%float) as [E|I]; [|exact I].
  exfalso. unfold max_price in Hpos. rewrite E in Hpos. discriminate Hpos.
Qed.

Lemma max_price_finite closes :
  Forall (fun p => is_finite p = true) closes ->
  is_finite (max_price closes) = true.
Proof.
  intro Hall. destruct (fold_higher_In closes 0%float) as [E|I].
  - unfold max_price. rewrite E. reflexivity.
  - rewrite Forall_forall in Hall. now apply Hall.
Qed.

End MaxPrice.

(** ** One ticker *)

Ltac run_bind :=
  repeat (rewrite result_bind; rewrite ?result_log_if;
          cbn [result fst emit ret raise]).

Section DetectorFacts.

Variable yf_history : string -> Z -> fetch_result.
Variables recentPeak recentTrend : Z.
Variable threshold : float.
Variable debug : bool.

Local Abbreviation body :=
  (ticker_body yf_history recentPeak recentTrend threshold debug).
Local Abbreviation loop :=
  (ticker_loop yf_history recentPeak recentTrend threshold debug).
Local Abbreviation detect :=
  (create_ticker_message yf_history recentPeak recentTrend threshold debug).

(** A fetch that raises leaves the message as it was; the failure is
    logged exactly when logging is enabled. *)
Lemma ticker_body_fetch_raised ticker err message :
  yf_history ticker recentPeak = FetchRaised err ->
  body ticker message =
  (Return message,
   if debug then
     [Log DEBUG (WorkingOnTicker ticker); HistoryRequest ticker recentPeak;
      Log ERROR (FailedToRetrievePrices ticker err)]
   else [HistoryRequest ticker recentPeak]).
Proof.
  intro Hyf. unfold ticker_body. rewrite Hyf.
  destruct debug; reflexivity.
Qed.

(** The trend gate closed: the message is left as it was. *)
Lemma ticker_body_gate_skips ticker closes priceTrendAgo priceToday message :
  yf_history ticker recentPeak = FetchOk closes ->
  result (getitem closes (- recentTrend)) = Return priceTrendAgo ->
  result (getitem closes TODAY) = Return priceToday ->
  (priceTrendAgo <? priceToday)%float = true ->
  result (body ticker message) = Return message.
Proof.
  intros Hyf Ha Hb Hlt. unfold ticker_body.
  run_bind. rewrite Hyf. run_bind. rewrite Ha. run_bind. rewrite Hb.
  rewrite Hlt. run_bind. reflexivity.
Qed.

(** The trend gate open: the threshold decides. *)
Lemma ticker_body_gate_passes ticker closes priceTrendAgo priceToday message :
  yf_history ticker recentPeak = FetchOk closes ->
  result (getitem closes (- recentTrend)) = Return priceTrendAgo ->
  result (getitem closes TODAY) = Return priceToday ->
  (priceTrendAgo <? priceToday)%float = false ->
  result (body ticker message) =
  Return (let percentDropped :=
            percent_dropped priceToday (max_price closes) in
          if (percentDropped <? - threshold)%float
          then message ++ dropped_line ticker percentDropped
          else message).
Proof.
  intros Hyf Ha Hb Hlt. unfold ticker_body.
  run_bind. rewrite Hyf. run_bind. rewrite Ha. run_bind. rewrite Hb.
  rewrite Hlt. run_bind. change (-1) with TODAY. rewrite Hb. run_bind.
  cbv zeta. destruct (PrimFloat.ltb _ (PrimFloat.opp _)); reflexivity.
Qed.

(** A history with fewer than [recentTrend] prices, an empty one among
    them: the access of line 100 raises, outside of any [try]. *)
Lemma ticker_body_short_history ticker closes message :
  yf_history ticker recentPeak = FetchOk closes ->
  0 < recentTrend ->
  Z.of_nat (List.length closes) < recentTrend ->
  result (body ticker message) = Raise IndexError.
Proof.
  intros Hyf Hpos Hshort. unfold ticker_body.
  run_bind. rewrite Hyf. run_bind.
  now rewrite (getitem_short closes recentTrend Hpos Hshort).
Qed.

Lemma ticker_body_empty_history ticker message :
  yf_history ticker recentPeak = FetchOk [] ->
  result (body ticker message) = Raise IndexError.
Proof.
  intros Hyf. unfold ticker_body.
  run_bind. rewrite Hyf. run_bind.
  now rewrite getitem_empty.
Qed.

(** What a ticker does to the message is to append its own line to it:
    the line it leaves in an empty message. *)
Lemma ticker_body_frame ticker message :
  result (body ticker message) =
  match result (body ticker EmptyString) with
  | Return line => Return (message ++ line)
  | Raise e => Raise e
  end.
Proof.
  unfold ticker_body. run_bind.
  destruct (yf_history ticker recentPeak) as [err|closes].
  - run_bind. now rewrite append_empty_r.
  - run_bind.
    destruct (result (getitem closes (- recentTrend))) as [a|e];
      [|reflexivity].
    run_bind.
    destruct (result (getitem closes TODAY)) as [b|e] eqn:Hb;
      [|reflexivity].
    destruct (PrimFloat.ltb a b).
    + run_bind. now rewrite append_empty_r.
    + run_bind. change (-1) with TODAY. rewrite Hb. run_bind.
      cbv zeta.
      destruct (PrimFloat.ltb _ (PrimFloat.opp _)); cbn [result fst ret].
      * reflexivity.
      * now rewrite append_empty_r.
Qed.

(** ** The loop over the tickers *)

Lemma ticker_loop_app front back : forall message,
  result (loop (front ++ back)%list message) =
  match result (loop front message) with
  | Return message' => result (loop back message')
  | Raise e => Raise e
  end.
Proof.
  induction front as [|t front IH]; intro message.
  - reflexivity.
  - cbn [ticker_loop app]. rewrite !result_bind.
    destruct (result (ticker_body _ _ _ _ _ t message)); [apply IH|reflexivity].
Qed.

Lemma detect_result tickers :
  result (detect tickers) = result (loop tickers EmptyString).
Proof.
  unfold create_ticker_message. now run_bind.
Qed.

(** A ticker that leaves every message as it was can be dropped from the
    list. *)
Lemma detect_drop_skipped front ticker back :
  (forall message, result (body ticker message) = Return message) ->
  result (detect (front ++ ticker :: back)%list)
  = result (detect (front ++ back)%list).
Proof.
  intro Hskip. rewrite !detect_result, !ticker_loop_app.
  destruct (result (loop front EmptyString)) as [m|e]; [|reflexivity].
  cbn [ticker_loop]. rewrite result_bind.
  now rewrite Hskip.
Qed.

(** The lines of the tickers, one after the other. *)
Lemma ticker_loop_lines tickers : forall lines message,
  Forall2 (fun t line => result (body t EmptyString) = Return line)
    tickers lines ->
  result (loop tickers message) = Return (message ++ concat_lines lines).
Proof.
  induction tickers as [|t tickers IH]; intros lines message HF;
    inversion HF as [|? line ? lines' Hline HF']; subst.
  - cbn. now rewrite append_empty_r.
  - cbn [ticker_loop concat_lines]. rewrite result_bind.
    rewrite ticker_body_frame, Hline.
    rewrite (IH _ _ HF'). now rewrite append_assoc.
Qed.

(** The detector performs no HTTP post. *)
Lemma ticker_body_posts ticker message :
  posts (trace (body ticker message)) = 0%nat.
Proof.
  unfold ticker_body.
  rewrite !trace_bind.
  destruct (yf_history ticker recentPeak) as [err|closes].
  - destruct debug; reflexivity.
  - rewrite !trace_bind, !trace_getitem.
    destruct (result (getitem closes (- recentTrend))) as [a|e];
      [|destruct debug; reflexivity].
    rewrite !trace_bind, !trace_getitem.
    destruct (result (getitem closes TODAY)) as [b|e] eqn:Hb;
      [|destruct debug; reflexivity].
    destruct (PrimFloat.ltb a b).
    + destruct debug; reflexivity.
    + rewrite !trace_bind, !trace_getitem. change (-1) with TODAY.
      rewrite Hb. rewrite !trace_bind.
      cbv zeta.
      destruct (PrimFloat.ltb _ (PrimFloat.opp _)); destruct debug;
        reflexivity.
Qed.

Lemma ticker_loop_posts tickers : forall message,
  posts (trace (loop tickers message)) = 0%nat.
Proof.
  induction tickers as [|t tickers IH]; intro message; [reflexivity|].
  cbn [ticker_loop]. rewrite trace_bind, posts_app, ticker_body_posts.
  destruct (result (body t message)); [apply IH | reflexivity].
Qed.

Lemma detect_posts tickers : posts (trace (detect tickers)) = 0%nat.
Proof.
  unfold create_ticker_message.
  rewrite trace_bind, posts_app, result_log_if, ticker_loop_posts.
  now destruct debug.
Qed.

(** The line a ticker leaves in an empty message is empty, or it is the
    line of a ticker whose drawdown is beyond the threshold. *)
Lemma ticker_body_line ticker line :
  result (body ticker EmptyString) = Return line ->
  line = EmptyString
  \/ exists closes priceToday,
       yf_history ticker recentPeak = FetchOk closes
       /\ result (getitem closes TODAY) = Return priceToday
       /\ (percent_dropped priceToday (max_price closes) <? - threshold)%float
          = true
       /\ line
          = dropped_line ticker
              (percent_dropped priceToday (max_price closes)).
Proof.
  unfold ticker_body. run_bind.
  destruct (yf_history ticker recentPeak) as [err|closes].
  - run_bind. intros [= <-]. now left.
  - run_bind.
    destruct (result (getitem closes (- recentTrend))) as [a|e];
      [|discriminate].
    run_bind.
    destruct (result (getitem closes TODAY)) as [b|e] eqn:Hb;
      [|discriminate].
    destruct (PrimFloat.ltb a b).
    + run_bind. intros [= <-]. now left.
    + run_bind. change (-1) with TODAY. rewrite Hb. run_bind.
      cbv zeta.
      destruct (PrimFloat.ltb _ (PrimFloat.opp _)) eqn:Hdrop;
        cbn [result fst ret].
      * intros [= <-]. right. exists closes, b. auto.
      * intros [= <-]. now left.
Qed.

Lemma ticker_loop_returns tickers : forall message final,
  result (loop tickers message) = Return final ->
  exists lines,
    Forall2 (fun t line => result (body t EmptyString) = Return line)
      tickers lines
    /\ final = message ++ concat_lines lines.
Proof.
  induction tickers as [|t tickers IH]; intros message final.
  - cbn. intros [= <-]. exists []. split; [constructor|].
    cbn. now rewrite append_empty_r.
  - cbn [ticker_loop]. rewrite result_bind, ticker_body_frame.
    destruct (result (body t EmptyString)) as [line|e] eqn:Hline;
      [|discriminate].
    intro Hrest. destruct (IH _ _ Hrest) as [lines [HF ->]].
    exists (line :: lines). split; [now constructor|].
    cbn [concat_lines]. now rewrite append_assoc.
Qed.

End DetectorFacts.


(** ** What is printed *)




(** * The claims on the drop detector *)



(** C2.  A ticker whose price [recentTrend] positions from the end is
    strictly below its most recent price leaves every message as it was, and
    the detector returns what it returns on the list without that ticker,
    whatever the drawdown of the ticker is. *)
Theorem trend_gate_excludes_ticker
    yf recentPeak recentTrend threshold debug front ticker back closes
    priceTrendAgo priceToday :
  yf ticker recentPeak = FetchOk closes ->
  result (getitem closes (- recentTrend)) = Return priceTrendAgo ->
  result (getitem closes TODAY) = Return priceToday ->
  (priceTrendAgo <? priceToday)%float = true ->
  (forall message,
      result (ticker_body yf recentPeak recentTrend threshold debug
                ticker message) = Return message)
  /\ result (create_ticker_message yf recentPeak recentTrend threshold debug
               (front ++ ticker :: back))
     = result (create_ticker_message yf recentPeak recentTrend threshold debug
                 (front ++ back)).
Proof.
  intros Hyf Ha Hb Hlt.
  assert (Hskip : forall message,
             result (ticker_body yf recentPeak recentTrend threshold debug
                       ticker message) = Return message)
    by (intro message; eapply ticker_body_gate_skips; eassumption).
  split; [exact Hskip|].
  now apply detect_drop_skipped.
Qed.

Lemma trend_gate_excludes_ticker_witness :
  (50 <? 60)%float = true
  /\ (percent_dropped 60 (max_price [100; 50; 60]%float) <? - 15)%float
     = true
  /\ result (create_ticker_message sample_history 30 2 15 false
               ["TICKER"; "RISING"])
     = Return ("TICKER dropped 20.0%" ++ newline).
Proof.
  split; [reflexivity|]. split; [reflexivity|].
  destruct (trend_gate_excludes_ticker sample_history 30 2 15%float false
              ["TICKER"] "RISING" [] [100; 50; 60]%float 50%float 60%float
              eq_refl eq_refl eq_refl eq_refl) as [_ Hsame].
  cbn [app] in Hsame. rewrite Hsame. reflexivity.
Defined.

(** C3.  When the closing prices of the fetched window are finite numbers
    and one of them is positive (closing prices are positive), [maxPrice]
    is the maximum of the window: it is one of its prices and no price of
    the window is above it.  The most recent price is one of them, so it is
    not above [maxPrice], and [percentDropped], the binary64 number
    [(priceToday - maxPrice) / maxPrice * 100] of line 115, is not
    positive. *)
Theorem max_price_and_drawdown closes priceToday :
  Forall (fun price => is_finite price = true) closes ->
  Exists (fun price => (0 <? price)%float = true) closes ->
  result (getitem closes (-1)) = Return priceToday ->
  let maxPrice := max_price closes in
  In maxPrice closes
  /\ Forall (fun price => (price <=? maxPrice)%float = true) closes
  /\ In priceToday closes
  /\ (priceToday <=? maxPrice)%float = true
  /\ percent_dropped priceToday maxPrice
     = ((priceToday - maxPrice) / maxPrice * 100)%float
  /\ (percent_dropped priceToday maxPrice <=? 0)%float = true.
Proof.
  intros Hfin Hpos Htoday maxPrice.
  pose proof (getitem_In _ _ _ Htoday) as Hin.
  pose proof (max_price_positive closes Hpos) as Hmax.
  assert (Hnum : forall price, In price closes -> Prim2SF price <> S754_nan).
  { intros price Hp. apply is_finite_number.
    rewrite Forall_forall in Hfin. now apply Hfin. }
  assert (Hle : (priceToday <=? maxPrice)%float = true)
    by (apply max_price_upper_bound; auto).
  split; [now apply max_price_In|].
  split.
  { apply Forall_forall. intros price Hp.
    apply max_price_upper_bound; auto. }
  split; [exact Hin|]. split; [exact Hle|]. split; [reflexivity|].
  apply leb_fle. apply percent_dropped_nonpositive.
  - rewrite Forall_forall in Hfin. now apply Hfin.
  - now apply max_price_finite.
  - now apply ltb_flt.
  - now apply leb_fle.
Qed.

Lemma max_price_and_drawdown_witness :
  max_price [100; 86]%float = 100%float
  /\ percent_dropped 86 (max_price [100; 86]%float)
     = ((86 - 100) / 100 * 100)%float
  /\ (percent_dropped 86 (max_price [100; 86]%float) <=? 0)%float = true
  /\ (percent_dropped 86 (max_price [100; 86]%float) <? - 14)%float = true.
Proof.
  assert (Hfin : Forall (fun price => is_finite price = true)
                   [100; 86]%float) by (repeat constructor).
  assert (Hpos : Exists (fun price => (0 <? price)%float = true)
                   [100; 86]%float) by (apply Exists_cons_hd; reflexivity).
  destruct (max_price_and_drawdown [100; 86]%float 86%float Hfin Hpos
              eq_refl) as [_ [_ [_ [_ [Hformula Hsign]]]]].
  split; [reflexivity|]. split; [exact Hformula|]. split; [exact Hsign|].
  reflexivity.
Defined.

(** C4.  A ticker whose history fetch raises leaves every message as it
    was and raises nothing itself; the failure is logged when logging is
    enabled; and the detector returns what it returns on the remaining
    tickers, in particular their message whenever they yield one. *)
Theorem fetch_failure_skips_ticker
    yf recentPeak recentTrend threshold debug front ticker back err :
  yf ticker recentPeak = FetchRaised err ->
  let body := ticker_body yf recentPeak recentTrend threshold debug in
  let detect :=
    create_ticker_message yf recentPeak recentTrend threshold debug in
  (forall message, result (body ticker message) = Return message)
  /\ (forall message,
        In (Log ERROR (FailedToRetrievePrices ticker err))
          (trace (body ticker message)) <-> debug = true)
  /\ result (detect (front ++ ticker :: back)%list)
     = result (detect (front ++ back)%list)
  /\ (forall message,
        result (detect (front ++ back)%list) = Return message ->
        result (detect (front ++ ticker :: back)%list) = Return message).
Proof.
  intros Hyf body detect.
  assert (Hbody : forall message,
             body ticker message =
             (Return message,
              if debug then
                [Log DEBUG (WorkingOnTicker ticker);
                 HistoryRequest ticker recentPeak;
                 Log ERROR (FailedToRetrievePrices ticker err)]
              else [HistoryRequest ticker recentPeak]))
    by (intro message; now apply ticker_body_fetch_raised).
  assert (Hskip : forall message, result (body ticker message) = Return message)
    by (intro message; now rewrite Hbody).
  assert (Hsame : result (detect (front ++ ticker :: back)%list)
                  = result (detect (front ++ back)%list))
    by now apply detect_drop_skipped.
  split; [exact Hskip|]. split; [|split].
  - intro message. rewrite Hbody. destruct debug; cbn.
    + split; [reflexivity|]. intros _. right. right. now left.
    + split; [|discriminate]. intros [H|[]]. discriminate.
  - exact Hsame.
  - intros message Hrest. now rewrite Hsame.
Qed.

Lemma fetch_failure_skips_ticker_witness :
  sample_history "GONE" 30 = FetchRaised "ConnectionError()"
  /\ result (create_ticker_message sample_history 30 2 15 true
               ["GONE"; "TICKER"])
     = Return ("TICKER dropped 20.0%" ++ newline).
Proof.
  split; [reflexivity|].
  destruct (fetch_failure_skips_ticker sample_history 30 2 15%float true
              [] "GONE" ["TICKER"] "ConnectionError()" eq_refl)
    as [_ [_ [_ Hrest]]].
  apply Hrest. reflexivity.
Defined.

(** C5 (the code fails it).  A history of the five closing prices of a
    week with [recentPeak = recentTrend = 7]: the fetch succeeds, the
    position [-7] is outside the column, and [IndexError] leaves the
    detector and [main]; the ticker is not skipped and the ticker after it
    is never worked on. *)
Theorem short_history_raises :
  sample_history "SHORT" 7 = FetchOk [50; 49; 48; 47; 46]%float
  /\ create_ticker_message sample_history 7 7 15 false ["SHORT"; "TICKER"]
     = (Raise IndexError, [HistoryRequest "SHORT" 7])
  /\ main (sample_world ["SHORT"; "TICKER"] 7 7 None 200)
     = (Raise IndexError, [OpenConfig; HistoryRequest "SHORT" 7]).
Proof.
  split; [reflexivity|]. split; reflexivity.
Qed.

(** C9.  The detector returns the empty string on an empty list of
    tickers.  On any list, when every ticker yields a line (the message it
    leaves in an empty message), the detector returns the concatenation of
    these lines in the order of the tickers, and whenever the detector
    returns, its message is such a concatenation.  The line of a ticker is
    empty when its fetch raised, when its price [recentTrend] positions
    from the end is below the most recent one, and when its drawdown is not
    below minus the threshold; it is [ticker ++ " dropped " ++ X ++ "%\n"]
    when the ticker passes the gate with a drawdown below minus the
    threshold. *)
Theorem message_is_concatenation yf recentPeak recentTrend threshold debug :
  let body := ticker_body yf recentPeak recentTrend threshold debug in
  let detect :=
    create_ticker_message yf recentPeak recentTrend threshold debug in
  result (detect []) = Return EmptyString
  /\ (forall tickers lines,
        Forall2 (fun t line => result (body t EmptyString) = Return line)
          tickers lines ->
        result (detect tickers) = Return (concat_lines lines))
  /\ (forall tickers message,
        result (detect tickers) = Return message ->
        exists lines,
          Forall2 (fun t line => result (body t EmptyString) = Return line)
            tickers lines
          /\ message = concat_lines lines)
  /\ (forall ticker err,
        yf ticker recentPeak = FetchRaised err ->
        result (body ticker EmptyString) = Return EmptyString)
  /\ (forall ticker closes priceTrendAgo priceToday,
        yf ticker recentPeak = FetchOk closes ->
        result (getitem closes (- recentTrend)) = Return priceTrendAgo ->
        result (getitem closes TODAY) = Return priceToday ->
        let maxPrice := max_price closes in
        let percentDropped :=
          ((priceToday - maxPrice) / maxPrice * 100)%float in
        result (body ticker EmptyString)
        = Return
            (if (priceTrendAgo <? priceToday)%float then EmptyString
             else if (percentDropped <? - threshold)%float
                  then ticker ++ " dropped "
                       ++ str_round2 (- percentDropped)%float
                       ++ "%" ++ newline
                  else EmptyString)).
Proof.
  intros body detect. split; [|split; [|split; [|split]]].
  - unfold detect. now rewrite detect_result.
  - intros tickers lines HF. unfold detect. rewrite detect_result.
    now rewrite (ticker_loop_lines _ _ _ _ _ _ _ _ HF).
  - intros tickers message Hret. unfold detect in Hret.
    rewrite detect_result in Hret.
    destruct (ticker_loop_returns _ _ _ _ _ _ _ _ Hret) as [lines [HF ->]].
    exists lines. now split.
  - intros ticker err Hyf. unfold body.
    now rewrite (ticker_body_fetch_raised _ _ _ _ _ _ _ _ Hyf).
  - intros ticker closes a b Hyf Ha Hb maxPrice pd. unfold body.
    destruct (a <? b)%float eqn:Hgate.
    + eapply ticker_body_gate_skips; eassumption.
    + rewrite (ticker_body_gate_passes _ _ _ _ _ _ _ _ _ _ Hyf Ha Hb Hgate).
      cbv zeta. change (percent_dropped b (max_price closes)) with pd.
      destruct (pd <? - threshold)%float; reflexivity.
Qed.

Lemma message_is_concatenation_witness :
  Forall2
    (fun t line =>
       result (ticker_body sample_history 30 2 10 false t EmptyString)
       = Return line)
    ["TICKER"; "RISING"; "GONE"; "TIE"]
    ["TICKER dropped 20.0%" ++ newline; EmptyString; EmptyString;
     "TIE dropped 14.37%" ++ newline]
  /\ result (create_ticker_message sample_history 30 2 10 false
               ["TICKER"; "RISING"; "GONE"; "TIE"])
     = Return (("TICKER dropped 20.0%" ++ newline)
               ++ "TIE dropped 14.37%" ++ newline)
  /\ result (ticker_body sample_history 30 2 20 false "TICKER" EmptyString)
     = Return EmptyString.
Proof.
  assert (HF : Forall2
    (fun t line =>
       result (ticker_body sample_history 30 2 10 false t EmptyString)
       = Return line)
    ["TICKER"; "RISING"; "GONE"; "TIE"]
    ["TICKER dropped 20.0%" ++ newline; EmptyString; EmptyString;
     "TIE dropped 14.37%" ++ newline]).
  { destruct (message_is_concatenation sample_history 30 2 10%float false)
      as [_ [_ [_ [Hraised Hfetched]]]].
    constructor.
    { exact (Hfetched "TICKER" [100; 90; 80]%float 90%float 80%float
               eq_refl eq_refl eq_refl). }
    constructor.
    { exact (Hfetched "RISING" [100; 50; 60]%float 50%float 60%float
               eq_refl eq_refl eq_refl). }
    constructor.
    { exact (Hraised "GONE" "ConnectionError()" eq_refl). }
    constructor; [|constructor].
    exact (Hfetched "TIE" [160; 137]%float 160%float 137%float
             eq_refl eq_refl eq_refl). }
  split; [exact HF|]. split.
  - destruct (message_is_concatenation sample_history 30 2 10%float false)
      as [_ [Hlines _]].
    exact (Hlines _ _ HF).
  - destruct (message_is_concatenation sample_history 30 2 20%float false)
      as [_ [_ [_ [_ Hfetched]]]].
    exact (Hfetched "TICKER" [100; 90; 80]%float 90%float 80%float
             eq_refl eq_refl eq_refl).
Defined.

(** C10.  With [recentTrend = 1] both sides of the comparison of the trend
    gate are the most recent closing price, which is not below itself: a
    ticker with a history that is not empty is never skipped by the gate,
    and whether its line is appended is decided by the threshold alone. *)
Theorem recentTrend_one_gate_open
    yf recentPeak threshold debug ticker closes message :
  yf ticker recentPeak = FetchOk closes ->
  closes <> [] ->
  let priceToday := List.last closes 0%float in
  let percentDropped := percent_dropped priceToday (max_price closes) in
  getitem closes (- (1)) = ret priceToday
  /\ getitem closes TODAY = ret priceToday
  /\ (priceToday <? priceToday)%float = false
  /\ result (ticker_body yf recentPeak 1 threshold debug ticker message)
     = Return (if (percentDropped <? - threshold)%float
               then message ++ dropped_line ticker percentDropped
               else message).
Proof.
  intros Hyf Hne priceToday percentDropped.
  pose proof (getitem_today closes Hne) as Hget.
  fold priceToday in Hget.
  assert (Hirrefl : (priceToday <? priceToday)%float = false)
    by (apply ltb_false_iff, flt_irrefl).
  split; [exact Hget|]. split; [exact Hget|].
  split; [exact Hirrefl|].
  apply (ticker_body_gate_passes yf recentPeak 1 threshold debug ticker closes
           priceToday priceToday message Hyf).
  - change (- (1)) with (-1). now rewrite Hget.
  - unfold TODAY. now rewrite Hget.
  - exact Hirrefl.
Qed.

Lemma recentTrend_one_gate_open_witness :
  sample_history "RISING" 30 = FetchOk [100; 50; 60]%float
  /\ result (ticker_body sample_history 30 1 15 false "RISING" EmptyString)
     = Return ("RISING dropped 40.0%" ++ newline)
  /\ result (ticker_body sample_history 30 1 45 false "RISING" EmptyString)
     = Return EmptyString.
Proof.
  assert (Hne : [100; 50; 60]%float <> []) by discriminate.
  split; [reflexivity|]. split.
  - destruct (recentTrend_one_gate_open sample_history 30 15%float false
                "RISING" [100; 50; 60]%float EmptyString eq_refl Hne)
      as [_ [_ [_ Hbody]]].
    rewrite Hbody. reflexivity.
  - destruct (recentTrend_one_gate_open sample_history 30 45%float false
                "RISING" [100; 50; 60]%float EmptyString eq_refl Hne)
      as [_ [_ [_ Hbody]]].
    rewrite Hbody. reflexivity.
Defined.
(** * The claims on the notifier and on [main] *)

Lemma posts_log_if debug lv r : posts (trace (log_if debug lv r)) = 0%nat.
Proof. now destruct debug. Qed.

Lemma send_message_posts post botID chatID message debug :
  posts (trace (send_message post botID chatID message debug)) = 1%nat.
Proof.
  unfold send_message.
  destruct (post _ chatID message) as [err|code]; destruct debug; reflexivity.
Qed.

Lemma send_message_result post botID chatID message debug :
  result (send_message post botID chatID message debug) =
  Return
    match post ("https://api.telegram.org/bot" ++ botID ++ "/sendMessage")
            chatID message with
    | PostStatus code => code =? 200
    | PostRaised _ => false
    end.
Proof.
  unfold send_message.
  destruct (post _ chatID message) as [err|code]; destruct debug; cbn;
    try reflexivity; unfold OK; destruct (code =? 200); reflexivity.
Qed.

(** C6.  [send_message] always returns a boolean and never raises.  The
    boolean is true exactly when the post answers with the status 200; a
    post that raises and a post with another status give false.  One post
    is made. *)
Theorem send_message_true_iff_200 post botID chatID message debug :
  let uri := "https://api.telegram.org/bot" ++ botID ++ "/sendMessage" in
  exists sent : bool,
    result (send_message post botID chatID message debug) = Return sent
    /\ (sent = true <-> post uri chatID message = PostStatus 200)
    /\ (forall err, post uri chatID message = PostRaised err -> sent = false)
    /\ (forall code,
          post uri chatID message = PostStatus code -> code <> 200 ->
          sent = false)
    /\ posts (trace (send_message post botID chatID message debug)) = 1%nat.
Proof.
  intro uri. eexists. split; [apply send_message_result|].
  fold uri. split; [|split; [|split]].
  - destruct (post uri chatID message) as [err|code].
    + split; discriminate.
    + split.
      * intro H. apply Z.eqb_eq in H. now subst.
      * intros [= ->]. reflexivity.
  - intros err ->. reflexivity.
  - intros code -> Hcode. now apply Z.eqb_neq.
  - apply send_message_posts.
Qed.

Lemma send_message_true_iff_200_witness :
  result (send_message (sample_post 200) "bot" "chat" "text" true)
  = Return true
  /\ result (send_message (sample_post 404) "bot" "chat" "text" true)
     = Return false
  /\ result (send_message (fun _ _ _ => PostRaised "Timeout()")
               "bot" "chat" "text" true)
     = Return false.
Proof.
  split; [|split].
  - destruct (send_message_true_iff_200 (sample_post 200) "bot" "chat" "text"
                true) as [sent [Hret [Hiff _]]].
    rewrite Hret. f_equal. apply Hiff. reflexivity.
  - destruct (send_message_true_iff_200 (sample_post 404) "bot" "chat" "text"
                true) as [sent [Hret [_ [_ [Hother _]]]]].
    rewrite Hret. f_equal. apply (Hother 404); [reflexivity | discriminate].
  - destruct (send_message_true_iff_200 (fun _ _ _ => PostRaised "Timeout()")
                "bot" "chat" "text" true) as [sent [Hret [_ [Hraised _]]]].
    rewrite Hret. f_equal. apply (Hraised "Timeout()"). reflexivity.
Defined.

(** ** [main] *)

Ltac run_trace :=
  repeat (rewrite trace_bind; rewrite ?posts_app;
          cbn [trace result fst snd emit ret raise]).

Section MainFacts.

Variable w : world.
Variable c : config.
Hypothesis Hconfig : config_json w = inr c.
Hypothesis Hlogging : loggingEnabled c = false \/ logging_setup w = None.

Local Abbreviation detect :=
  (create_ticker_message (yf_history w) (recentPeak c) (recentTrend c)
     (percentDropped c) (loggingEnabled c) (tickers c)).

Local Abbreviation send :=
  (send_message (requests_post w) (telegramBotId c) (telegramChatId c)).

(** What is left of [main] once the configuration is loaded and the
    logging is set up: the check of the configuration, the detector, and
    the notification or the probe. *)
Lemma main_result :
  result (main w) =
  if recentPeak c >=? recentTrend c then
    match result detect with
    | Return message =>
        if negb (message =? EmptyString)%string then
          match result (send message (loggingEnabled c)) with
          | Return sent => Return (if sent then 0 else -1)
          | Raise e => Raise e
          end
        else
          match yf_probe w with
          | Some _ => Return (-1)
          | None => Return 0
          end
    | Raise e => Raise e
    end
  else Raise (AssertionError recentPeak_message).
Proof.
  unfold main. rewrite Hconfig. cbv zeta.
  assert (Hsetup :
            result (if loggingEnabled c
                    then (emit (LoggingSetup (logFileName c)) ;;
                          ret (logging_setup w))
                    else ret None) = Return None).
  { destruct Hlogging as [-> | ->]; [reflexivity|].
    destruct (loggingEnabled c); reflexivity. }
  rewrite result_bind. cbn [result fst emit].
  rewrite result_bind, Hsetup.
  rewrite result_bind.
  destruct (recentPeak c >=? recentTrend c); [|reflexivity].
  cbn [result fst ret].
  rewrite result_bind.
  destruct (result detect) as [message|e]; [|reflexivity].
  destruct (negb (message =? EmptyString)%string).
  - run_bind.
    destruct (result (send message (loggingEnabled c))) as [[|]|e];
      reflexivity.
  - run_bind. destruct (yf_probe w).
    + run_bind. rewrite send_message_result. reflexivity.
    + reflexivity.
Qed.

Lemma main_posts message :
  (recentTrend c <= recentPeak c) ->
  result detect = Return message ->
  posts (trace (main w)) =
  if negb (message =? EmptyString)%string then 1%nat
  else match yf_probe w with
       | Some _ => 1%nat
       | None => 0%nat
       end.
Proof.
  intros Hinv Hdetect.
  unfold main. rewrite Hconfig. cbv zeta.
  assert (Hge : (recentPeak c >=? recentTrend c) = true)
    by (rewrite Z.geb_leb; now apply Z.leb_le).
  rewrite Hge.
  assert (Hsetup :
            exists t,
              (if loggingEnabled c
               then (emit (LoggingSetup (logFileName c)) ;;
                     ret (logging_setup w))
               else ret None) = (Return None, t) /\ posts t = 0%nat).
  { destruct Hlogging as [-> | ->].
    - eexists. split; reflexivity.
    - destruct (loggingEnabled c); eexists; split; reflexivity. }
  destruct Hsetup as [t [-> Ht]].
  run_trace. rewrite Ht, Hdetect, detect_posts.
  destruct (negb (message =? EmptyString)%string).
  - run_trace. rewrite result_log_if. run_trace.
    rewrite ?posts_app, posts_log_if, send_message_posts, send_message_result.
    destruct (match requests_post w _ _ _ with
              | PostRaised _ => false | PostStatus code => code =? 200
              end); reflexivity.
  - run_trace. destruct (yf_probe w); [|reflexivity].
    run_trace. rewrite result_log_if. run_trace.
    rewrite ?posts_app, posts_log_if, send_message_posts, send_message_result.
    reflexivity.
Qed.

End MainFacts.

(** ** The status of the script

    Line 179 is the statement [main()]: the value [main] returns is
    dropped.  The script ends with the status 0 when [main] returns, and
    with the status 1 when an exception leaves it. *)

Lemma exit_status_of_main (w : world) :
  exit_status w =
  match result (main w) with
  | Return _ => 0
  | Raise _ => 1
  end.
Proof.
  unfold exit_status, script. rewrite result_bind.
  destruct (result (main w)); reflexivity.
Qed.

(** C7 (the code fails it).  The status the script ends with is 0 or 1 in
    every run, and never -1.  A configuration with [recentPeak = 5] and
    [recentTrend = 7] is loaded, fails the check of line 150 and makes
    [main] raise [AssertionError]: [main] does not return -1 and the status
    is 1.  In the other fatal cases [main] returns -1 and the status is 0:
    a configuration that cannot be loaded, a logging set-up that fails, a
    notification that is answered with the status 500, and an empty message
    with a probe that fails, after the one post of the outage message.  An
    empty message with a probe that succeeds ends with the status 0 and no
    post, and so does a notification answered with 200, after one post. *)
Theorem fatal_run_exit_status :
  (forall w, exit_status w = 0 \/ exit_status w = 1)
  /\ (config_json (sample_world ["TICKER"] 5 7 None 200)
      = inr (sample_config ["TICKER"] 5 7)
      /\ recentPeak (sample_config ["TICKER"] 5 7)
         < recentTrend (sample_config ["TICKER"] 5 7)
      /\ main (sample_world ["TICKER"] 5 7 None 200)
         = (Raise (AssertionError recentPeak_message), [OpenConfig])
      /\ result (main (sample_world ["TICKER"] 5 7 None 200)) <> Return (-1)
      /\ exit_status (sample_world ["TICKER"] 5 7 None 200) = 1)
  /\ (result (main (sample_world ["TICKER"] 30 2 None 500)) = Return (-1)
      /\ posts (trace (main (sample_world ["TICKER"] 30 2 None 500))) = 1%nat
      /\ exit_status (sample_world ["TICKER"] 30 2 None 500) = 0)
  /\ (result (main (sample_world ["RISING"] 30 2 (Some "Exception()") 200))
      = Return (-1)
      /\ posts (trace (main (sample_world ["RISING"] 30 2
                               (Some "Exception()") 200))) = 1%nat
      /\ exit_status (sample_world ["RISING"] 30 2 (Some "Exception()") 200)
         = 0)
  /\ (forall w err,
        config_json w = inl err ->
        result (main w) = Return (-1) /\ exit_status w = 0)
  /\ (forall w c err,
        config_json w = inr c ->
        loggingEnabled c = true -> logging_setup w = Some err ->
        result (main w) = Return (-1) /\ exit_status w = 0)
  /\ (result (main (sample_world ["RISING"] 30 2 None 200)) = Return 0
      /\ posts (trace (main (sample_world ["RISING"] 30 2 None 200))) = 0%nat
      /\ exit_status (sample_world ["RISING"] 30 2 None 200) = 0)
  /\ (result (main (sample_world ["TICKER"] 30 2 None 200)) = Return 0
      /\ posts (trace (main (sample_world ["TICKER"] 30 2 None 200))) = 1%nat
      /\ exit_status (sample_world ["TICKER"] 30 2 None 200) = 0).
Proof.
  split.
  { intro w. rewrite exit_status_of_main.
    destruct (result (main w)); [now left | now right]. }
  split.
  { split; [reflexivity|]. split; [reflexivity|]. split; [reflexivity|].
    split; [discriminate | reflexivity]. }
  split; [repeat split; reflexivity|].
  split; [repeat split; reflexivity|].
  split.
  { intros w err Hcfg.
    assert (Hmain : result (main w) = Return (-1))
      by (unfold main; now rewrite Hcfg).
    split; [exact Hmain|]. now rewrite exit_status_of_main, Hmain. }
  split.
  { intros w c err Hcfg Hon Hsetup.
    assert (Hmain : result (main w) = Return (-1))
      by (unfold main; rewrite Hcfg; cbv zeta; now rewrite Hon, Hsetup).
    split; [exact Hmain|]. now rewrite exit_status_of_main, Hmain. }
  split; repeat split; reflexivity.
Qed.

Lemma fatal_run_exit_status_witness :
  exit_status {| config_json := inl "FileNotFoundError()";
                 logging_setup := None;
                 yf_history := sample_history;
                 yf_probe := None;
                 requests_post := sample_post 200 |} = 0
  /\ exit_status {| config_json :=
                      inr (sample_config_logging ["TICKER"] 30 2);
                    logging_setup := Some "PermissionError()";
                    yf_history := sample_history;
                    yf_probe := None;
                    requests_post := sample_post 200 |} = 0.
Proof.
  destruct fatal_run_exit_status as [_ [_ [_ [_ [Hload [Hsetup _]]]]]].
  split.
  - apply (Hload _ "FileNotFoundError()"). reflexivity.
  - apply (Hsetup _ (sample_config_logging ["TICKER"] 30 2)
             "PermissionError()"); reflexivity.
Defined.

(** C8.  When the configuration is loaded and has
    [recentPeak < recentTrend], no event of the run reaches the network: no
    history request, no probe, no post.  The run ends in the
    [AssertionError] of line 150, unless the logging set-up has failed
    before, in which case it has returned -1 already. *)
Theorem invariant_violation_no_network (w : world) (c : config) :
  config_json w = inr c ->
  recentPeak c < recentTrend c ->
  Forall (fun e => is_network e = false) (trace (main w))
  /\ (result (main w) = Raise (AssertionError recentPeak_message)
      \/ (exists err,
             loggingEnabled c = true /\ logging_setup w = Some err
             /\ result (main w) = Return (-1))).
Proof.
  intros Hcfg Hlt.
  assert (Hge : (recentPeak c >=? recentTrend c) = false)
    by (rewrite Z.geb_leb; now apply Z.leb_gt).
  unfold main. rewrite Hcfg. cbv zeta. rewrite Hge.
  destruct (loggingEnabled c); [destruct (logging_setup w) as [err|]|]; cbn.
  - split; [repeat constructor|]. right. exists err. auto.
  - split; [repeat constructor|]. now left.
  - split; [repeat constructor|]. now left.
Qed.

Lemma invariant_violation_no_network_witness :
  recentPeak (sample_config ["TICKER"] 5 7)
  < recentTrend (sample_config ["TICKER"] 5 7)
  /\ Forall (fun e => is_network e = false)
       (trace (main (sample_world ["TICKER"] 5 7 None 200))).
Proof.
  assert (Hlt : recentPeak (sample_config ["TICKER"] 5 7)
                < recentTrend (sample_config ["TICKER"] 5 7))
    by reflexivity.
  split; [exact Hlt|].
  exact (proj1 (invariant_violation_no_network
                  (sample_world ["TICKER"] 5 7 None 200)
                  (sample_config ["TICKER"] 5 7) eq_refl Hlt)).
Defined.

(** * Further properties of the script *)

(** ** Views of the trace *)

Lemma network_app (t1 t2 : list event) :
  network (t1 ++ t2) = (network t1 ++ network t2)%list.
Proof. apply filter_app. Qed.

Lemma logs_app (t1 t2 : list event) :
  logs (t1 ++ t2) = (logs t1 ++ logs t2)%list.
Proof. apply filter_app. Qed.

Lemma network_log_if debug lv r : network (trace (log_if debug lv r)) = [].
Proof. now destruct debug. Qed.

(** ** Positions inside and outside the column *)

Lemma getitem_in_column closes i :
  in_column closes i = true -> exists price, getitem closes i = ret price.
Proof.
  unfold in_column, getitem. cbv zeta.
  set (n := Z.of_nat (List.length closes)).
  intro Hin. apply andb_true_iff in Hin. destruct Hin as [Hlo Hhi].
  apply Z.leb_le in Hlo. apply Z.ltb_lt in Hhi.
  set (k := if i <? 0 then n + i else i).
  assert (Hk : 0 <= k < n).
  { unfold k. destruct (i <? 0) eqn:E.
    - apply Z.ltb_lt in E. lia.
    - apply Z.ltb_ge in E. lia. }
  replace ((0 <=? k) && (k <? n)) with true.
  - destruct (nth_error closes (Z.to_nat k)) as [price|] eqn:E.
    + now exists price.
    + exfalso. apply nth_error_None in E. unfold n in Hk. lia.
  - symmetry. apply andb_true_iff.
    split; [apply Z.leb_le | apply Z.ltb_lt]; lia.
Qed.

Lemma getitem_out_of_column closes i :
  in_column closes i = false -> getitem closes i = raise IndexError.
Proof.
  unfold in_column, getitem. cbv zeta.
  set (n := Z.of_nat (List.length closes)).
  intro Hout. apply andb_false_iff in Hout.
  set (k := if i <? 0 then n + i else i).
  replace ((0 <=? k) && (k <? n)) with false; [reflexivity|].
  symmetry. apply andb_false_iff. unfold k.
  destruct (i <? 0) eqn:E.
  - apply Z.ltb_lt in E. destruct Hout as [Hlo|Hhi].
    + apply Z.leb_gt in Hlo. left. apply Z.leb_gt. lia.
    + apply Z.ltb_ge in Hhi. lia.
  - apply Z.ltb_ge in E. destruct Hout as [Hlo|Hhi].
    + apply Z.leb_gt in Hlo. unfold n in Hlo. lia.
    + apply Z.ltb_ge in Hhi. right. apply Z.ltb_ge. lia.
Qed.

Ltac run_network :=
  repeat first
    [ rewrite trace_bind | rewrite network_app | rewrite network_log_if
    | rewrite trace_getitem | rewrite result_log_if ];
  cbn [trace result fst snd emit ret raise network filter is_network app].

Section MoreDetectorFacts.

Variable yf_history : string -> Z -> fetch_result.
Variables recentPeak recentTrend : Z.
Variable threshold : float.
Variable debug : bool.

Local Abbreviation body :=
  (ticker_body yf_history recentPeak recentTrend threshold debug).
Local Abbreviation loop :=
  (ticker_loop yf_history recentPeak recentTrend threshold debug).
Local Abbreviation detect :=
  (create_ticker_message yf_history recentPeak recentTrend threshold debug).
Local Abbreviation alive := (survives yf_history recentPeak recentTrend).

(** The only exception a ticker raises is [IndexError], and it raises it
    exactly when it does not get past line 100. *)
Lemma ticker_body_survives ticker message :
  alive ticker = true ->
  exists message', result (body ticker message) = Return message'.
Proof.
  unfold survives.
  destruct (yf_history ticker recentPeak) as [err|closes] eqn:Hyf.
  - intros _. exists message.
    now rewrite (ticker_body_fetch_raised _ _ _ _ _ _ _ _ Hyf).
  - intro Hin. apply andb_true_iff in Hin. destruct Hin as [Hago Hnow].
    destruct (getitem_in_column _ _ Hago) as [a Ha].
    destruct (getitem_in_column _ _ Hnow) as [b Hb].
    apply (f_equal result) in Ha, Hb. cbn [result fst ret] in Ha, Hb.
    destruct (a <? b)%float eqn:Hlt.
    + exists message. eapply ticker_body_gate_skips; eassumption.
    + eexists. eapply ticker_body_gate_passes; eassumption.
Qed.

Lemma ticker_body_crashes ticker message :
  alive ticker = false ->
  result (body ticker message) = Raise IndexError.
Proof.
  unfold survives, ticker_body. run_bind.
  destruct (yf_history ticker recentPeak) as [err|closes]; [discriminate|].
  intro Hout. run_bind.
  destruct (in_column closes (- recentTrend)) eqn:Hago.
  - destruct (getitem_in_column _ _ Hago) as [a Ha].
    apply (f_equal result) in Ha. cbn [result fst ret] in Ha.
    rewrite Ha. rewrite result_bind. cbn [andb] in Hout.
    now rewrite (getitem_out_of_column _ _ Hout).
  - now rewrite (getitem_out_of_column _ _ Hago).
Qed.

Lemma ticker_loop_survives tickers : forall message,
  forallb alive tickers = true ->
  exists final, result (loop tickers message) = Return final.
Proof.
  induction tickers as [|t tickers IH]; intros message Hall.
  - now exists message.
  - cbn [forallb] in Hall. apply andb_true_iff in Hall.
    destruct Hall as [Ht Hrest].
    destruct (ticker_body_survives t message Ht) as [message' Hbody].
    cbn [ticker_loop]. rewrite result_bind, Hbody. now apply IH.
Qed.

Lemma ticker_loop_crashes tickers : forall message,
  forallb alive tickers = false ->
  result (loop tickers message) = Raise IndexError.
Proof.
  induction tickers as [|t tickers IH]; intros message Hall; [discriminate|].
  cbn [forallb] in Hall. cbn [ticker_loop]. rewrite result_bind.
  destruct (alive t) eqn:Ht.
  - destruct (ticker_body_survives t message Ht) as [message' ->].
    now apply IH.
  - now rewrite ticker_body_crashes.
Qed.

(** One request per ticker, whatever becomes of the ticker. *)
Lemma ticker_body_network ticker message :
  network (trace (body ticker message)) = [history_request recentPeak ticker].
Proof.
  unfold ticker_body. run_network.
  destruct (yf_history ticker recentPeak) as [err|closes].
  - run_network. reflexivity.
  - run_network.
    destruct (result (getitem closes (- recentTrend))) as [a|e];
      [|reflexivity].
    run_network.
    destruct (result (getitem closes TODAY)) as [b|e] eqn:Hb;
      [|reflexivity].
    destruct (a <? b)%float.
    + run_network. reflexivity.
    + run_network. change (-1) with TODAY. rewrite Hb. run_network.
      cbv zeta. destruct (PrimFloat.ltb _ _); reflexivity.
Qed.

Lemma ticker_loop_network_returns tickers : forall message final,
  result (loop tickers message) = Return final ->
  network (trace (loop tickers message))
  = map (history_request recentPeak) tickers.
Proof.
  induction tickers as [|t tickers IH]; intros message final; [reflexivity|].
  cbn [ticker_loop map]. rewrite result_bind, trace_bind, network_app.
  rewrite ticker_body_network.
  destruct (result (body t message)) as [message'|e]; [|discriminate].
  intro Hrest. now rewrite (IH _ _ Hrest).
Qed.

Lemma ticker_loop_trace_app front back : forall message,
  trace (loop (front ++ back)%list message) =
  (trace (loop front message)
   ++ match result (loop front message) with
      | Return message' => trace (loop back message')
      | Raise _ => []
      end)%list.
Proof.
  induction front as [|t front IH]; intro message.
  - reflexivity.
  - cbn [ticker_loop app]. rewrite !trace_bind, !result_bind.
    destruct (result (body t message)) as [message'|e].
    + now rewrite IH, app_assoc.
    + now rewrite !app_nil_r.
Qed.

Lemma detect_network tickers :
  network (trace (detect tickers))
  = network (trace (loop tickers EmptyString)).
Proof.
  unfold create_ticker_message.
  rewrite trace_bind, network_app, network_log_if, result_log_if.
  reflexivity.
Qed.

(** The requests of a run are those of a front part of the list. *)
Lemma ticker_loop_network_front tickers : forall message,
  exists n,
    network (trace (loop tickers message))
    = map (history_request recentPeak) (firstn n tickers).
Proof.
  induction tickers as [|t tickers IH]; intro message.
  - now exists 0%nat.
  - cbn [ticker_loop]. rewrite trace_bind, network_app, ticker_body_network.
    destruct (result (body t message)) as [message'|e].
    + destruct (IH message') as [n Hn]. exists (S n).
      now rewrite Hn.
    + now exists 1%nat.
Qed.

End MoreDetectorFacts.

(** ** Strings *)

Lemma append_eq_empty (s1 s2 : string) :
  s1 ++ s2 = EmptyString -> s1 = EmptyString /\ s2 = EmptyString.
Proof. destruct s1; cbn; [auto | discriminate]. Qed.

Lemma dropped_line_not_empty ticker percentDropped :
  dropped_line ticker percentDropped <> EmptyString.
Proof.
  unfold dropped_line. intro H.
  apply append_eq_empty in H. destruct H as [_ H]. discriminate.
Qed.

Lemma concat_lines_app (l1 l2 : list string) :
  concat_lines (l1 ++ l2) = concat_lines l1 ++ concat_lines l2.
Proof.
  induction l1 as [|l l1 IH]; cbn; [reflexivity|].
  now rewrite IH, append_assoc.
Qed.

(** ** When the detector returns, and what it asks the provider *)

(** X1.  The detector raises nothing but [IndexError], and it raises it
    exactly when some ticker does not get past line 100: its fetch
    succeeded and one of the two positions read there is outside the
    column.  With a positive [recentTrend] a fetched ticker gets past line
    100 exactly when its history has [recentTrend] rows at least. *)
Theorem detector_returns_iff_histories_suffice
    yf recentPeak recentTrend threshold debug tickers :
  let detect :=
    create_ticker_message yf recentPeak recentTrend threshold debug in
  let alive := survives yf recentPeak recentTrend in
  (forallb alive tickers = true ->
   exists message, result (detect tickers) = Return message)
  /\ (forallb alive tickers = false ->
      result (detect tickers) = Raise IndexError)
  /\ (0 < recentTrend ->
      forall ticker closes,
        yf ticker recentPeak = FetchOk closes ->
        (alive ticker = true
         <-> recentTrend <= Z.of_nat (List.length closes))).
Proof.
  intros detect alive. split; [|split].
  - intro Hall. unfold detect. rewrite detect_result.
    now apply ticker_loop_survives.
  - intro Hall. unfold detect. rewrite detect_result.
    now apply ticker_loop_crashes.
  - intros Hpos ticker closes Hyf. unfold alive, survives. rewrite Hyf.
    unfold in_column, TODAY. rewrite andb_true_iff, !andb_true_iff.
    rewrite !Z.leb_le, !Z.ltb_lt. lia.
Qed.

Lemma detector_returns_iff_histories_suffice_witness :
  (exists message,
      result (create_ticker_message sample_history_with_empty 30 2 15 false
                ["TICKER"; "GONE"]) = Return message)
  /\ result (create_ticker_message sample_history_with_empty 30 2 15 false
               ["TICKER"; "EMPTY"; "GONE"]) = Raise IndexError
  /\ (survives sample_history_with_empty 7 7 "SHORT" = true <-> 7 <= 5).
Proof.
  destruct (detector_returns_iff_histories_suffice
              sample_history_with_empty 30 2 15%float false ["TICKER"; "GONE"])
    as [Hreturns _].
  destruct (detector_returns_iff_histories_suffice
              sample_history_with_empty 30 2 15%float false
              ["TICKER"; "EMPTY"; "GONE"])
    as [_ [Hraises _]].
  destruct (detector_returns_iff_histories_suffice
              sample_history_with_empty 7 7 15%float false [])
    as [_ [_ Hrows]].
  split; [apply Hreturns; reflexivity|].
  split; [apply Hraises; reflexivity|].
  apply (Hrows ltac:(lia) "SHORT" [50; 49; 48; 47; 46]%float eq_refl).
Defined.

(** X2.  A detector that returns has asked the provider once for each
    ticker of the list, in the order of the list and duplicates included,
    each time for [recentPeak] days, and has reached the network in no other
    way. *)
Theorem detector_requests_each_ticker_once
    yf recentPeak recentTrend threshold debug tickers message :
  result (create_ticker_message yf recentPeak recentTrend threshold debug
            tickers) = Return message ->
  network (trace (create_ticker_message yf recentPeak recentTrend threshold
                    debug tickers))
  = map (history_request recentPeak) tickers.
Proof.
  intro Hret. rewrite detect_result in Hret. rewrite detect_network.
  eapply ticker_loop_network_returns. eassumption.
Qed.

Lemma detector_requests_each_ticker_once_witness :
  network (trace (create_ticker_message sample_history 30 2 15 true
                    ["TICKER"; "GONE"; "TICKER"]))
  = [HistoryRequest "TICKER" 30; HistoryRequest "GONE" 30;
     HistoryRequest "TICKER" 30].
Proof.
  exact (detector_requests_each_ticker_once sample_history 30 2 15%float true
           ["TICKER"; "GONE"; "TICKER"]
           (("TICKER dropped 20.0%" ++ newline)
            ++ "TICKER dropped 20.0%" ++ newline) eq_refl).
Defined.

(** X3.  When the tickers before it are worked on without an exception, a
    ticker that does not get past line 100 ends the detector with
    [IndexError]: the message built so far is lost, and the tickers after it
    are never asked for. *)
Theorem detector_stops_at_insufficient_history
    yf recentPeak recentTrend threshold debug front ticker back message :
  let detect :=
    create_ticker_message yf recentPeak recentTrend threshold debug in
  result (detect front) = Return message ->
  survives yf recentPeak recentTrend ticker = false ->
  result (detect (front ++ ticker :: back)%list) = Raise IndexError
  /\ network (trace (detect (front ++ ticker :: back)%list))
     = map (history_request recentPeak) (front ++ [ticker])%list.
Proof.
  intros detect Hfront Hdead. unfold detect in *.
  rewrite detect_result in Hfront.
  rewrite detect_result, detect_network.
  rewrite ticker_loop_app, ticker_loop_trace_app, Hfront.
  cbn [ticker_loop]. rewrite result_bind, trace_bind.
  rewrite (ticker_body_crashes _ _ _ _ _ _ _ Hdead).
  split; [reflexivity|].
  rewrite !network_app, ticker_body_network, map_app.
  rewrite (ticker_loop_network_returns _ _ _ _ _ _ _ _ Hfront).
  reflexivity.
Qed.

Lemma detector_stops_at_insufficient_history_witness :
  create_ticker_message sample_history 7 2 15 false ["TICKER"]
  = (Return ("TICKER dropped 20.0%" ++ newline), [HistoryRequest "TICKER" 7])
  /\ result (create_ticker_message sample_history_with_empty 7 2 15 false
               ["TICKER"; "EMPTY"; "RISING"]) = Raise IndexError
  /\ network (trace (create_ticker_message sample_history_with_empty 7 2 15
                       false ["TICKER"; "EMPTY"; "RISING"]))
     = [HistoryRequest "TICKER" 7; HistoryRequest "EMPTY" 7].
Proof.
  split; [reflexivity|].
  exact (detector_stops_at_insufficient_history sample_history_with_empty
           7 2 15%float false ["TICKER"] "EMPTY" ["RISING"]
           ("TICKER dropped 20.0%" ++ newline) eq_refl eq_refl).
Defined.

(** X4.  The detector composes over lists: with a provider that answers the
    requests for a ticker alike, when the detector returns a message on each
    of two lists of tickers, it returns on their concatenation the first
    message followed by the second.  Nothing is deduplicated: a list given
    twice is reported twice. *)
Theorem detector_message_of_concatenation
    yf recentPeak recentTrend threshold debug tickers1 tickers2
    message1 message2 :
  let detect :=
    create_ticker_message yf recentPeak recentTrend threshold debug in
  result (detect tickers1) = Return message1 ->
  result (detect tickers2) = Return message2 ->
  result (detect (tickers1 ++ tickers2)%list)
  = Return (message1 ++ message2).
Proof.
  intros detect H1 H2. unfold detect in *.
  rewrite detect_result in H1, H2.
  rewrite detect_result, ticker_loop_app, H1.
  destruct (ticker_loop_returns _ _ _ _ _ _ _ _ H2) as [lines [HF ->]].
  cbn [append].
  apply (ticker_loop_lines _ _ _ _ _ _ _ _ HF).
Qed.

Lemma detector_message_of_concatenation_witness :
  result (create_ticker_message sample_history 30 2 15 false
            ["TICKER"; "RISING"; "TICKER"; "RISING"])
  = Return (("TICKER dropped 20.0%" ++ newline)
            ++ "TICKER dropped 20.0%" ++ newline).
Proof.
  exact (detector_message_of_concatenation sample_history 30 2 15%float false
           ["TICKER"; "RISING"] ["TICKER"; "RISING"] _ _ eq_refl eq_refl).
Defined.

(** ** The message and the reported tickers *)

Section ReportedFacts.

Variable yf_history : string -> Z -> fetch_result.
Variables recentPeak recentTrend : Z.
Variable threshold : float.
Variable debug : bool.

Local Abbreviation body :=
  (ticker_body yf_history recentPeak recentTrend threshold debug).

(** The ticker leaves a line of its own in an empty message. *)
Local Abbreviation reported :=
  (fun ticker =>
     exists percentDropped,
       (percentDropped <? - threshold)%float = true
       /\ result (body ticker EmptyString)
          = Return (dropped_line ticker percentDropped)).

Lemma lines_empty_iff_none_reported tickers lines :
  Forall2 (fun t line => result (body t EmptyString) = Return line)
    tickers lines ->
  concat_lines lines <> EmptyString <-> Exists reported tickers.
Proof.
  induction 1 as [|t line tickers lines Hline HF IH]; cbn [concat_lines].
  - split; [congruence | intro H; inversion H].
  - split.
    + intro Hne.
      destruct (ticker_body_line _ _ _ _ _ _ _ Hline)
        as [->|[closes [b [_ [_ [Hdrop ->]]]]]].
      * right. apply IH. exact Hne.
      * left. eexists. split; [exact Hdrop | exact Hline].
    + intros Hex Hempty. apply append_eq_empty in Hempty.
      destruct Hempty as [-> Hrest].
      inversion Hex as [? ? [pd [_ Hrep]]|? ? Hex']; subst.
      * rewrite Hline in Hrep. injection Hrep as Hrep.
        symmetry in Hrep. exact (dropped_line_not_empty _ _ Hrep).
      * apply IH in Hex'. contradiction.
Qed.

End ReportedFacts.

(** X5.  The message the detector returns is empty exactly when no ticker
    of the list is reported, a reported ticker being one that, worked on
    alone, leaves its ["... dropped ...%"] line with a drawdown beyond the
    threshold.  So the test [if (message)] of [main] tells silence from an
    alert, whatever the symbols are (the empty symbol included). *)
Theorem message_empty_iff_no_ticker_reported
    yf recentPeak recentTrend threshold debug tickers message :
  result (create_ticker_message yf recentPeak recentTrend threshold debug
            tickers) = Return message ->
  (message <> EmptyString
   <-> Exists
         (fun ticker =>
            exists percentDropped,
              (percentDropped <? - threshold)%float = true
              /\ result (ticker_body yf recentPeak recentTrend threshold debug
                           ticker EmptyString)
                 = Return (dropped_line ticker percentDropped))
         tickers).
Proof.
  intro Hret. rewrite detect_result in Hret.
  destruct (ticker_loop_returns _ _ _ _ _ _ _ _ Hret) as [lines [HF ->]].
  cbn [append].
  now apply lines_empty_iff_none_reported.
Qed.

Lemma message_empty_iff_no_ticker_reported_witness :
  ~ Exists
      (fun ticker =>
         exists percentDropped,
           (percentDropped <? - 15)%float = true
           /\ result (ticker_body sample_history 30 2 15 false ticker
                        EmptyString)
              = Return (dropped_line ticker percentDropped))
      ["RISING"; "GONE"].
Proof.
  intro Hex.
  apply (message_empty_iff_no_ticker_reported sample_history 30 2 15%float false
           ["RISING"; "GONE"] EmptyString eq_refl) in Hex.
  now apply Hex.
Defined.

(** ** Logging and the outcome *)

Lemma ticker_body_result_any_debug
    yf recentPeak recentTrend threshold debug1 debug2 ticker message :
  result (ticker_body yf recentPeak recentTrend threshold debug1
            ticker message)
  = result (ticker_body yf recentPeak recentTrend threshold debug2
              ticker message).
Proof.
  unfold ticker_body. run_bind.
  destruct (yf ticker recentPeak) as [err|closes].
  - run_bind. reflexivity.
  - run_bind.
    destruct (result (getitem closes (- recentTrend))) as [a|e];
      [|reflexivity].
    run_bind.
    destruct (result (getitem closes TODAY)) as [b|e] eqn:Hb;
      [|reflexivity].
    destruct (a <? b)%float.
    + run_bind. reflexivity.
    + run_bind. change (-1) with TODAY. rewrite Hb. run_bind.
      cbv zeta. destruct (PrimFloat.ltb _ _); reflexivity.
Qed.

Lemma ticker_loop_result_any_debug
    yf recentPeak recentTrend threshold debug1 debug2 tickers :
  forall message,
    result (ticker_loop yf recentPeak recentTrend threshold debug1
              tickers message)
    = result (ticker_loop yf recentPeak recentTrend threshold debug2
                tickers message).
Proof.
  induction tickers as [|t tickers IH]; intro message; [reflexivity|].
  cbn [ticker_loop]. rewrite !result_bind.
  rewrite (ticker_body_result_any_debug _ _ _ _ debug1 debug2).
  destruct (result (ticker_body _ _ _ _ debug2 t message)); [apply IH|].
  reflexivity.
Qed.

(** X6.  Logging changes no outcome: the detector returns the same message,
    or raises the same exception, with the logging on and with it off, and
    [send_message] returns the same boolean. *)
Theorem logging_changes_no_outcome
    yf recentPeak recentTrend threshold tickers post botID chatID text
    debug1 debug2 :
  result (create_ticker_message yf recentPeak recentTrend threshold debug1
            tickers)
  = result (create_ticker_message yf recentPeak recentTrend threshold debug2
              tickers)
  /\ result (send_message post botID chatID text debug1)
     = result (send_message post botID chatID text debug2).
Proof.
  split.
  - rewrite !detect_result. apply ticker_loop_result_any_debug.
  - now rewrite !send_message_result.
Qed.

(** ** The threshold *)

Lemma drop_below_lower_threshold (x t t' : float) :
  (t' <=? t)%float = true ->
  (x <? - t)%float = true -> (x <? - t')%float = true.
Proof.
  intros Hle Hdrop. apply leb_fle in Hle. apply ltb_flt in Hdrop.
  apply ltb_flt. eapply flt_fle_trans; [exact Hdrop|]. now apply fle_opp.
Qed.

(** X7.  Lowering the threshold loses no alert: a ticker that leaves a line
    at some threshold leaves the very same line at every lower
    threshold. *)
Theorem lower_threshold_keeps_line
    yf recentPeak recentTrend threshold threshold' debug ticker line :
  (threshold' <=? threshold)%float = true ->
  result (ticker_body yf recentPeak recentTrend threshold debug
            ticker EmptyString) = Return line ->
  line <> EmptyString ->
  result (ticker_body yf recentPeak recentTrend threshold' debug
            ticker EmptyString) = Return line.
Proof.
  intro Hle. unfold ticker_body. run_bind.
  destruct (yf ticker recentPeak) as [err|closes].
  - run_bind. intros [= <-] Hne. now contradiction Hne.
  - run_bind.
    destruct (result (getitem closes (- recentTrend))) as [a|e];
      [|discriminate].
    run_bind.
    destruct (result (getitem closes TODAY)) as [b|e] eqn:Hb;
      [|discriminate].
    destruct (a <? b)%float.
    + run_bind. intros [= <-] Hne. now contradiction Hne.
    + run_bind. change (-1) with TODAY. rewrite Hb. run_bind.
      cbv zeta.
      destruct (percent_dropped b (max_price closes) <? - threshold)%float
        eqn:Hdrop; cbn [result fst ret].
      * intros [= <-] _.
        now rewrite (drop_below_lower_threshold _ _ _ Hle Hdrop).
      * intros [= <-] Hne. now contradiction Hne.
Qed.

Lemma lower_threshold_keeps_line_witness :
  (5 <=? 15)%float = true
  /\ result (ticker_body sample_history 30 2 5 false "TICKER" EmptyString)
     = Return ("TICKER dropped 20.0%" ++ newline).
Proof.
  assert (Hle : (5 <=? 15)%float = true) by reflexivity.
  split; [exact Hle|].
  apply (lower_threshold_keeps_line sample_history 30 2 15%float 5%float false
           "TICKER" _ Hle eq_refl).
  discriminate.
Defined.

(** ** Rounding below a number of the format *)

Lemma shifted_1 x : 0 <= shr_m x -> shifted 1 x (shr_1 x).
Proof.
  destruct x as [m r s]. unfold shifted, inexact. cbn [shr_m].
  change (2 ^ 1) with 2.
  intro Hm. destruct m as [|[p|p|]|p]; cbn [shr_1 shr_m shr_r shr_s orb];
    try lia.
  - split; [lia|]. split; [lia|]. intro H. now left.
  - split; [lia|]. split; [lia|]. intro H. now left.
Qed.

Lemma shifted_trans a b x y z :
  0 <= a -> 0 <= b ->
  shifted a x y -> shifted b y z -> shifted (a + b) x z.
Proof.
  intros Ha Hb [Hy [Hxy Hiy]] [Hz [Hyz Hiz]].
  unfold shifted. rewrite Z.pow_add_r by lia.
  assert (Pa : 0 < 2 ^ a) by (apply Z.pow_pos_nonneg; lia).
  assert (Pb : 0 < 2 ^ b) by (apply Z.pow_pos_nonneg; lia).
  split; [exact Hz|]. split; [nia|].
  intro H. destruct (Hiz H) as [H1|H1].
  - destruct (Hiy H1) as [H2|H2]; [now left|]. right. nia.
  - right. nia.
Qed.

Lemma shifted_iter p : forall x,
  0 <= shr_m x -> shifted (Zpos p) x (iter_pos shr_1 p x).
Proof.
  induction p as [p IH|p IH|]; intros x Hx; cbn [iter_pos].
  - pose proof (shifted_1 x Hx) as H1.
    assert (H1m : 0 <= shr_m (shr_1 x)) by apply H1.
    pose proof (IH _ H1m) as H2.
    assert (H2m : 0 <= shr_m (iter_pos shr_1 p (shr_1 x))) by apply H2.
    pose proof (IH _ H2m) as H3.
    replace (Zpos p~1) with (1 + Zpos p + Zpos p) by lia.
    eapply shifted_trans; [lia|lia| |exact H3].
    eapply shifted_trans; [lia|lia|exact H1|exact H2].
  - pose proof (IH _ Hx) as H2.
    assert (H2m : 0 <= shr_m (iter_pos shr_1 p x)) by apply H2.
    pose proof (IH _ H2m) as H3.
    replace (Zpos p~0) with (Zpos p + Zpos p) by lia.
    eapply shifted_trans; [lia|lia|exact H2|exact H3].
  - now apply shifted_1.
Qed.

Lemma shifted_0 x : 0 <= shr_m x -> shifted 0 x x.
Proof.
  intro Hx. unfold shifted. rewrite Z.pow_0_r.
  split; [exact Hx|]. split; [lia|]. now left.
Qed.

Lemma inexact_record_of_loc m l :
  inexact (shr_record_of_loc m l) -> l <> loc_Exact.
Proof. destruct l as [|[]]; unfold inexact; cbn; congruence. Qed.

Lemma loc_of_record_exact mrs :
  ~ inexact mrs -> loc_of_shr_record mrs = loc_Exact.
Proof.
  destruct mrs as [m [] []]; unfold inexact; cbn; congruence.
Qed.

Lemma shr_m_record_of_loc m l : shr_m (shr_record_of_loc m l) = m.
Proof. now destruct l as [|[]]. Qed.

(** The first step of a rounding: the mantissa is brought to the exponent
    of its magnitude. *)
Lemma shr_fexp_shifted m e l :
  0 <= m ->
  let n := Z.max 0 (fexp prec emax (Zdigits2 m + e) - e) in
  shifted n (shr_record_of_loc m l) (fst (shr_fexp prec emax m e l))
  /\ snd (shr_fexp prec emax m e l) = e + n.
Proof.
  intros Hm n. unfold shr_fexp, shr. unfold n.
  assert (Hx : 0 <= shr_m (shr_record_of_loc m l))
    by now rewrite shr_m_record_of_loc.
  destruct (fexp prec emax (Zdigits2 m + e) - e) as [|p|p];
    cbn [fst snd Z.max Z.compare].
  - split; [now apply shifted_0 | lia].
  - split; [now apply shifted_iter | reflexivity].
  - split; [now apply shifted_0 | lia].
Qed.

Lemma Zdigits2_bounds m :
  0 < m -> m < 2 ^ Zdigits2 m /\ 2 ^ Zdigits2 m <= 2 * m.
Proof.
  destruct m as [|p|p]; try lia. intros _. apply digits2_pos_bounds.
Qed.

Lemma Zdigits2_nonneg m : 0 <= Zdigits2 m.
Proof. destruct m; cbn; lia. Qed.

(** A mantissa brought to an exponent above the least one has 53 digits. *)
Lemma shifted_normal m e m1 :
  0 <= m ->
  let c := fexp prec emax (Zdigits2 m + e) in
  e <= c -> -1074 < c ->
  m < (m1 + 1) * 2 ^ (c - e) ->
  2 ^ 52 <= m1.
Proof.
  intros Hm c Hle Hc Hup.
  unfold c, fexp, emin in *. change prec with 53 in *.
  change emax with 1024 in *.
  assert (Hd : Zdigits2 m = fexp prec emax (Zdigits2 m + e) - e + 53)
    by (unfold fexp, emin; change prec with 53; change emax with 1024; lia).
  unfold fexp, emin in Hd. change prec with 53 in Hd.
  change emax with 1024 in Hd.
  set (n := Z.max (Zdigits2 m + e - 53) (3 - 1024 - 53) - e) in *.
  assert (Hn : 0 <= n) by lia.
  assert (Hpos : 0 < m).
  { destruct m as [|p|p]; [cbn in Hd; lia | lia | lia]. }
  destruct (Zdigits2_bounds m Hpos) as [_ Hlow].
  rewrite Hd in Hlow.
  replace (n + 53) with (n + 52 + 1) in Hlow by lia.
  rewrite Z.pow_add_r, Z.pow_1_r in Hlow by lia.
  rewrite Z.pow_add_r in Hlow by lia.
  assert (Pn : 0 < 2 ^ n) by (apply Z.pow_pos_nonneg; lia).
  nia.
Qed.

Lemma round_nearest_even_range m l :
  m <= round_nearest_even m l <= m + 1
  /\ (l = loc_Exact -> round_nearest_even m l = m).
Proof.
  destruct l as [|[]]; cbn [round_nearest_even]; try (split; [lia|easy]).
  destruct (Z.even m); split; try lia; easy.
Qed.

Lemma scaled_shift m e n :
  0 <= n -> -2200 <= e -> scaled m (e + n) = scaled (m * 2 ^ n) e.
Proof.
  intros Hn He. unfold scaled.
  replace (e + n + 2200) with (n + (e + 2200)) by lia.
  rewrite Z.pow_add_r by lia. ring.
Qed.

Lemma scaled_le_mono m m' e :
  -2200 <= e -> m <= m' -> scaled m e <= scaled m' e.
Proof.
  intros He Hm. unfold scaled.
  apply Z.mul_le_mono_nonneg_r; [apply Z.pow_nonneg; lia | exact Hm].
Qed.

Lemma bounded_spec mb eb :
  bounded prec emax mb eb = true ->
  -1074 <= eb <= 971 /\ Zpos mb < 2 ^ 53 /\ (-1074 < eb -> 2 ^ 52 <= Zpos mb).
Proof.
  unfold bounded, canonical_mantissa, fexp, emin.
  change prec with 53. change emax with 1024.
  intro H. apply andb_true_iff in H. destruct H as [Hc Hb].
  apply Z.eqb_eq in Hc. apply Z.leb_le in Hb.
  destruct (digits2_pos_bounds mb) as [Hup Hlow].
  split; [lia|]. split.
  - eapply Z.lt_le_trans; [exact Hup|]. apply Z.pow_le_mono_r; lia.
  - intro Hn. replace (Zpos (digits2_pos mb)) with 53 in Hlow by lia.
    change (2 ^ 53) with (2 * 2 ^ 52) in Hlow. lia.
Qed.

(** A number that a binary64 number bounds is rounded to a number that
    this binary64 number bounds: rounding to nearest does not step over a
    number of the format, and does not overflow below one. *)
Lemma round_within_bound s m e l mb eb :
  0 <= m -> -2200 <= e ->
  e <= fexp prec emax (Zdigits2 m + e) ->
  bounded prec emax mb eb = true ->
  scaled m e <= scaled (Zpos mb) eb ->
  (l <> loc_Exact -> scaled m e < scaled (Zpos mb) eb) ->
  match binary_round_aux prec emax s m e l with
  | S754_zero s' => s' = s
  | S754_finite s' m' e' =>
      s' = s /\ scaled (Zpos m') e' <= scaled (Zpos mb) eb
  | _ => False
  end.
Proof.
  intros Hm He Hle Hb H2 H3.
  destruct (bounded_spec mb eb Hb) as [Heb [Hmb _]].
  unfold binary_round_aux.
  destruct (shr_fexp_shifted m e l Hm) as [Hsh He'].
  set (c := fexp prec emax (Zdigits2 m + e)) in *.
  assert (En : Z.max 0 (c - e) = c - e) by lia.
  rewrite En in Hsh, He'. clear En.
  destruct (shr_fexp prec emax m e l) as [mrs' e']. cbn [fst snd] in *.
  replace (e + (c - e)) with c in He' by lia. subst e'.
  destruct Hsh as [Hm1 [Hrange Hinex]]. rewrite shr_m_record_of_loc in *.
  set (m1 := shr_m mrs') in *.
  destruct (round_nearest_even_range m1 (loc_of_shr_record mrs'))
    as [Hm2 Hexact].
  set (m2 := round_nearest_even m1 (loc_of_shr_record mrs')) in *.
  assert (Pn : 0 < 2 ^ (c - e)) by (apply Z.pow_pos_nonneg; lia).
  assert (Pe : 0 < 2 ^ (e + 2200)) by (apply Z.pow_pos_nonneg; lia).
  assert (Pc : 0 < 2 ^ (c + 2200)) by (apply Z.pow_pos_nonneg; lia).
  assert (Ece : 2 ^ (c + 2200) = 2 ^ (c - e) * 2 ^ (e + 2200)).
  { rewrite <- Z.pow_add_r by lia. f_equal. lia. }
  assert (Hs1 : scaled m1 c <= scaled m e).
  { unfold scaled. rewrite Ece. nia. }
  assert (Hs1' : inexact mrs' -> scaled m1 c < scaled (Zpos mb) eb).
  { intro Hi. destruct (Hinex Hi) as [Hl|Hlt].
    - apply inexact_record_of_loc in Hl. specialize (H3 Hl). lia.
    - assert (scaled m1 c < scaled m e); [|lia].
      unfold scaled. rewrite Ece. nia. }
  assert (Hnormal : -1074 < c -> 2 ^ 52 <= m1).
  { intro Hc. apply (shifted_normal m e m1 Hm Hle Hc). apply Hrange. }
  assert (Hbound2 : scaled m2 c <= scaled (Zpos mb) eb).
  { destruct (Z.lt_ge_cases eb c) as [Hlt|Hge].
    - exfalso. specialize (Hnormal ltac:(lia)).
      assert (Hbig : scaled (Zpos mb) eb < scaled m1 c); [|lia].
      unfold scaled.
      assert (Epow : 2 ^ (c + 2200) = 2 ^ (c - eb) * 2 ^ (eb + 2200)).
      { rewrite <- Z.pow_add_r by lia. f_equal. lia. }
      assert (Hk : 2 ^ 1 <= 2 ^ (c - eb)) by (apply Z.pow_le_mono_r; lia).
      change (2 ^ 1) with 2 in Hk.
      assert (Pb : 0 < 2 ^ (eb + 2200)) by (apply Z.pow_pos_nonneg; lia).
      rewrite Epow. change (2 ^ 53) with (2 * 2 ^ 52) in Hmb.
      generalize dependent (2 ^ 52). intros. nia.
    - assert (Epow : 2 ^ (eb + 2200) = 2 ^ (eb - c) * 2 ^ (c + 2200)).
      { rewrite <- Z.pow_add_r by lia. f_equal. lia. }
      assert (Pk : 0 < 2 ^ (eb - c)) by (apply Z.pow_pos_nonneg; lia).
      unfold scaled in *. rewrite Epow in *.
      rewrite Z.mul_assoc in *.
      set (K := Zpos mb * 2 ^ (eb - c)) in *.
      assert (Hk1 : m1 <= K)
        by (apply (Z.mul_le_mono_pos_r _ _ (2 ^ (c + 2200)) Pc); lia).
      apply Z.mul_le_mono_nonneg_r; [lia|].
      destruct (shr_r mrs' || shr_s mrs') eqn:Hi.
      + specialize (Hs1' Hi).
        apply (Z.mul_lt_mono_pos_r (2 ^ (c + 2200)) _ _ Pc) in Hs1'. lia.
      + assert (Hex : ~ inexact mrs') by (unfold inexact; congruence).
        rewrite (Hexact (loc_of_record_exact _ Hex)). exact Hk1. }
  assert (Hm2' : 0 <= m2) by lia.
  destruct (shr_fexp_shifted m2 c loc_Exact Hm2') as [Hsh2 He''].
  set (c2 := fexp prec emax (Zdigits2 m2 + c)) in *.
  destruct (shr_fexp prec emax m2 c loc_Exact) as [mrs'' e''].
  cbn [fst snd] in *.
  destruct Hsh2 as [Hm3 [Hrange2 _]]. rewrite shr_m_record_of_loc in *.
  set (m3 := shr_m mrs'') in *.
  set (n2 := Z.max 0 (c2 - c)) in *.
  assert (Hn2 : 0 <= n2) by lia.
  assert (Pn2 : 0 < 2 ^ n2) by (apply Z.pow_pos_nonneg; lia).
  assert (Hs3 : scaled m3 e'' <= scaled (Zpos mb) eb).
  { rewrite He'', scaled_shift by lia.
    eapply Z.le_trans; [|exact Hbound2].
    apply scaled_le_mono; lia. }
  destruct m3 as [|p|p] eqn:Em3; [reflexivity| |lia].
  destruct (e'' <=? emax - prec) eqn:Hov; [now split|].
  apply Z.leb_gt in Hov. change (emax - prec) with 971 in Hov.
  exfalso.
  assert (Hbig : 2 ^ 52 <= Zpos p).
  { destruct (Z.lt_ge_cases c c2) as [Hshift|Hnone].
    - assert (En2 : n2 = c2 - c) by lia.
      apply (shifted_normal m2 c (Zpos p) Hm2'); fold c2; try lia.
      rewrite <- En2. apply Hrange2.
    - assert (En2 : n2 = 0) by lia. rewrite En2, Z.pow_0_r in Hrange2.
      specialize (Hnormal ltac:(lia)). lia. }
  unfold scaled in Hs3.
  assert (Hpe : 2 ^ (1 + 3171) <= 2 ^ (e'' + 2200))
    by (apply Z.pow_le_mono_r; lia).
  assert (Hpb : 2 ^ (eb + 2200) <= 2 ^ 3171)
    by (apply Z.pow_le_mono_r; lia).
  rewrite (Z.pow_add_r 2 1 3171) in Hpe by lia.
  change (2 ^ 1) with 2 in Hpe. change (2 ^ 53) with (2 * 2 ^ 52) in Hmb.
  assert (P1 : 0 < 2 ^ 3171) by (apply Z.pow_pos_nonneg; lia).
  assert (P3 : 0 < 2 ^ 52) by (apply Z.pow_pos_nonneg; lia).
  assert (P4 : 0 < 2 ^ (eb + 2200)) by (apply Z.pow_pos_nonneg; lia).
  revert Hs3 Hpe Hpb Hmb Hbig P1 P3 P4.
  generalize (2 ^ 3171) (2 ^ 52) (2 ^ (eb + 2200)) (2 ^ (e'' + 2200)).
  intros A T Eb E2 Hs3 Hpe Hpb Hmb Hbig P1 P3 P4.
  assert (H1 : T * (2 * A) <= Zpos p * E2) by nia.
  assert (H2' : Zpos mb * Eb < 2 * T * A) by nia.
  lia.
Qed.

Lemma round_within m e l mb eb :
  0 <= m -> -2200 <= e ->
  e <= fexp prec emax (Zdigits2 m + e) ->
  bounded prec emax mb eb = true ->
  scaled m e <= scaled (Zpos mb) eb ->
  (l <> loc_Exact -> scaled m e < scaled (Zpos mb) eb) ->
  within (binary_round_aux prec emax true m e l) mb eb.
Proof.
  intros Hm He Hle Hb H2 H3.
  pose proof (round_within_bound true m e l mb eb Hm He Hle Hb H2 H3) as H.
  unfold within.
  destruct (binary_round_aux prec emax true m e l) as [s'|s'| |s' m' e'];
    try contradiction; [exact I|].
  destruct H as [-> H]. exact H.
Qed.

Lemma fexp_mono a b : a <= b -> fexp prec emax a <= fexp prec emax b.
Proof. unfold fexp. lia. Qed.

Lemma fexp_floor a : -1074 <= fexp prec emax a.
Proof. unfold fexp, emin. change prec with 53. change emax with 1024. lia. Qed.

Lemma Zdigits2_lower q k : 0 <= k -> 2 ^ k <= q -> k < Zdigits2 q.
Proof.
  intros Hk Hq.
  assert (Hpos : 0 < q).
  { eapply Z.lt_le_trans; [|exact Hq]. apply Z.pow_pos_nonneg; lia. }
  destruct (Zdigits2_bounds q Hpos) as [Hup _].
  apply (Z.pow_lt_mono_r_iff 2); [lia | apply Zdigits2_nonneg | lia].
Qed.

Lemma scaled_align m e e' :
  -2200 <= e' -> e' <= e -> scaled (m * 2 ^ (e - e')) e' = scaled m e.
Proof.
  intros H1 H2. unfold scaled.
  replace (e + 2200) with ((e - e') + (e' + 2200)) by lia.
  rewrite (Z.pow_add_r 2 (e - e') (e' + 2200)) by lia. ring.
Qed.

(** Two binary64 mantissas compare as their ranks do. *)
Lemma scaled_le_canonical m1 e1 m2 e2 :
  bounded prec emax m1 e1 = true ->
  bounded prec emax m2 e2 = true ->
  scaled (Zpos m1) e1 <= scaled (Zpos m2) e2 ->
  e1 < e2 \/ (e1 = e2 /\ Zpos m1 <= Zpos m2).
Proof.
  intros H1 H2 Hle.
  destruct (bounded_spec _ _ H1) as [He1 [_ Hn1]].
  destruct (bounded_spec _ _ H2) as [He2 [Hm2 _]].
  destruct (Z.lt_trichotomy e1 e2) as [Hlt|[Heq|Hgt]]; [now left| |].
  - right. split; [exact Heq|]. subst e2. unfold scaled in Hle.
    apply Z.mul_le_mono_pos_r in Hle; [exact Hle|].
    apply Z.pow_pos_nonneg; lia.
  - exfalso. specialize (Hn1 ltac:(lia)). unfold scaled in Hle.
    assert (Epow : 2 ^ (e1 + 2200) = 2 ^ (e1 - e2) * 2 ^ (e2 + 2200)).
    { rewrite <- Z.pow_add_r by lia. f_equal. lia. }
    assert (Hk : 2 ^ 1 <= 2 ^ (e1 - e2)) by (apply Z.pow_le_mono_r; lia).
    change (2 ^ 1) with 2 in Hk.
    assert (Pb : 0 < 2 ^ (e2 + 2200)) by (apply Z.pow_pos_nonneg; lia).
    rewrite Epow in Hle. change (2 ^ 53) with (2 * 2 ^ 52) in Hm2.
    assert (PT : 0 < 2 ^ 52) by (apply Z.pow_pos_nonneg; lia).
    revert Hle Hk Pb Hm2 Hn1 PT.
    generalize (2 ^ 52) (2 ^ (e1 - e2)) (2 ^ (e2 + 2200)).
    intros T K P Hle Hk Pb Hm2 Hn1 PT.
    assert (A1 : 2 * T <= Zpos m1 * K) by nia.
    assert (A2 : 2 * T * P <= Zpos m1 * K * P)
      by (apply Z.mul_le_mono_nonneg_r; lia).
    assert (A3 : Zpos m2 * P < 2 * T * P)
      by (apply Z.mul_lt_mono_pos_r; lia).
    lia.
Qed.

(** *** The difference *)

Lemma shl_align_spec m e e' :
  let '(mz, ez) := shl_align m e e' in
  ez = Z.min e e' /\ Zpos mz = Zpos m * 2 ^ (e - ez).
Proof.
  unfold shl_align.
  destruct (e' - e) as [|p|p] eqn:E.
  - split; [lia|]. rewrite Z.sub_diag. lia.
  - split; [lia|]. rewrite Z.sub_diag. lia.
  - split; [lia|]. replace (e - e') with (Zpos p) by lia.
    change (Pos.iter xO m p) with (shift_pos p m).
    rewrite shift_pos_correct, Z.pow_pos_fold. lia.
Qed.

Lemma Zdigits2_shift m k :
  0 < m -> 0 <= k -> Zdigits2 (m * 2 ^ k) = Zdigits2 m + k.
Proof.
  intros Hm Hk.
  assert (Pk : 0 < 2 ^ k) by (apply Z.pow_pos_nonneg; lia).
  assert (Hmk : 0 < m * 2 ^ k) by nia.
  destruct (Zdigits2_bounds m Hm) as [U1 L1].
  destruct (Zdigits2_bounds _ Hmk) as [U2 L2].
  pose proof (Zdigits2_nonneg m) as N1.
  pose proof (Zdigits2_nonneg (m * 2 ^ k)) as N2.
  assert (A : m * 2 ^ k < 2 ^ (Zdigits2 m + k))
    by (rewrite Z.pow_add_r by lia; nia).
  assert (B : 2 ^ (Zdigits2 m + k) <= 2 * (m * 2 ^ k))
    by (rewrite Z.pow_add_r by lia; nia).
  assert (C1 : 2 ^ Zdigits2 (m * 2 ^ k) < 2 ^ (Zdigits2 m + k + 1)).
  { rewrite (Z.pow_add_r _ _ 1) by lia. change (2 ^ 1) with 2. lia. }
  assert (C2 : 2 ^ (Zdigits2 m + k) < 2 ^ (Zdigits2 (m * 2 ^ k) + 1)).
  { rewrite (Z.pow_add_r _ _ 1) by lia. change (2 ^ 1) with 2. lia. }
  apply Z.pow_lt_mono_r_iff in C1; [|lia|lia].
  apply Z.pow_lt_mono_r_iff in C2; [|lia|lia].
  lia.
Qed.

Lemma binary_round_within k e mb eb :
  -1074 <= e ->
  bounded prec emax mb eb = true ->
  scaled (Zpos k) e <= scaled (Zpos mb) eb ->
  within (binary_round prec emax true k e) mb eb.
Proof.
  intros He Hb Hle. unfold binary_round.
  pose proof (shl_align_spec k e
                (fexp prec emax (Zpos (digits2_pos k) + e))) as Hal.
  pose proof (fexp_floor (Zpos (digits2_pos k) + e)) as Hfl.
  set (t := fexp prec emax (Zpos (digits2_pos k) + e)) in *.
  destruct (shl_align k e t) as [mz ez]. destruct Hal as [Ez Emz].
  assert (Hval : scaled (Zpos mz) ez = scaled (Zpos k) e).
  { rewrite Emz. apply scaled_align; lia. }
  apply round_within; try lia.
  - rewrite Emz.
    rewrite Zdigits2_shift by lia.
    change (Zdigits2 (Zpos k)) with (Zpos (digits2_pos k)).
    replace (Zpos (digits2_pos k) + (e - ez) + ez)
      with (Zpos (digits2_pos k) + e) by lia.
    fold t. lia.
  - exact Hb.
  - congruence.
Qed.

(** The difference of two positive binary64 numbers, the first one not
    above the second one, is a zero or a negative number whose magnitude
    does not exceed the second one. *)
Lemma SFsub_within mx ex my ey :
  valid_binary (S754_finite false mx ex) = true ->
  valid_binary (S754_finite false my ey) = true ->
  rank_le (1, ex, Zpos mx) (1, ey, Zpos my) ->
  within (SFsub prec emax (S754_finite false mx ex) (S754_finite false my ey))
    my ey.
Proof.
  intros Hvx Hvy Hle.
  pose proof (aligned_mantissas_le mx ex my ey Hvx Hvy Hle) as Hab.
  destruct (valid_binary_digits _ _ _ Hvx) as [_ [_ Hex]].
  destruct (valid_binary_digits _ _ _ Hvy) as [_ [_ Hey]].
  cbn [SFsub cond_Zopp]. cbv zeta.
  pose proof (shl_align_fst my ey (Z.min ex ey) ltac:(lia)) as Eb.
  set (a := fst (shl_align mx ex (Z.min ex ey))) in *.
  set (b := fst (shl_align my ey (Z.min ex ey))) in *.
  destruct (Zpos a - Zpos b) as [|p|p] eqn:E; cbn [binary_normalize].
  - exact I.
  - lia.
  - apply binary_round_within; [lia | exact Hvy |].
    rewrite <- (scaled_align (Zpos my) ey (Z.min ex ey)) by lia.
    rewrite <- Eb. apply scaled_le_mono; lia.
Qed.

(** *** The quotient *)

Lemma new_location_exact nb_steps k :
  new_location nb_steps k <> loc_Exact -> k <> 0.
Proof.
  unfold new_location, new_location_even, new_location_odd.
  intros H E. subst k. destruct (Z.even nb_steps); now apply H.
Qed.

(** The arithmetic of a quotient that is at most 1. *)
Lemma quotient_scaled mx my q r ex ey e' s :
  0 < my -> 0 <= q -> 0 <= r < my ->
  -2200 <= ey -> -2200 <= e' -> 0 <= s -> -2200 <= ex ->
  s = ex - ey - e' ->
  mx * 2 ^ s = my * q + r ->
  scaled mx ex <= scaled my ey ->
  scaled q e' * (my * 2 ^ (ey + 2200)) + r * 2 ^ (e' + 2200 + (ey + 2200))
  <= 2 ^ 2200 * (my * 2 ^ (ey + 2200)).
Proof.
  intros Hmy Hq Hr Hey He' Hs Hex Es Hqr Hx. unfold scaled in *.
  assert (Id : 2 ^ s * 2 ^ (e' + 2200 + (ey + 2200))
               = 2 ^ (ex + 2200) * 2 ^ 2200).
  { rewrite <- !Z.pow_add_r by lia. f_equal. lia. }
  rewrite (Z.pow_add_r 2 (e' + 2200) (ey + 2200)) in * by lia.
  assert (PE : 0 < 2 ^ (e' + 2200)) by (apply Z.pow_pos_nonneg; lia).
  assert (PY : 0 < 2 ^ (ey + 2200)) by (apply Z.pow_pos_nonneg; lia).
  assert (PU : 0 < 2 ^ 2200) by (apply Z.pow_pos_nonneg; lia).
  revert Id Hx Hqr PE PY PU.
  generalize (2 ^ s) (2 ^ (e' + 2200)) (2 ^ (ey + 2200)) (2 ^ (ex + 2200))
             (2 ^ 2200).
  intros S E Y X U Id Hx Hqr PE PY PU.
  assert (A1 : (my * q + r) * (E * Y) = mx * (X * U)).
  { rewrite <- Hqr, <- Id. ring. }
  assert (A2 : mx * X * U <= my * Y * U)
    by (apply Z.mul_le_mono_nonneg_r; lia).
  replace (q * E * (my * Y) + r * (E * Y))
    with ((my * q + r) * (E * Y)) by ring.
  rewrite A1. lia.
Qed.

Lemma quotient_at_most_1 mx my q r ex ey e' s :
  0 < my -> 0 <= q -> 0 <= r < my ->
  -2200 <= ey -> -2200 <= e' -> 0 <= s -> -2200 <= ex ->
  s = ex - ey - e' ->
  mx * 2 ^ s = my * q + r ->
  scaled mx ex <= scaled my ey ->
  scaled q e' <= scaled 4503599627370496 (-52).
Proof.
  intros Hmy Hq Hr Hey He' Hs Hex Es Hqr Hx.
  pose proof (quotient_scaled mx my q r ex ey e' s Hmy Hq Hr Hey He' Hs Hex
                Es Hqr Hx) as H.
  replace (scaled 4503599627370496 (-52)) with (2 ^ 2200)
    by (unfold scaled; change 4503599627370496 with (2 ^ 52);
        rewrite <- Z.pow_add_r by lia; reflexivity).
  assert (PY : 0 < my * 2 ^ (ey + 2200))
    by (apply Z.mul_pos_pos; [lia | apply Z.pow_pos_nonneg; lia]).
  assert (PR : 0 <= r * 2 ^ (e' + 2200 + (ey + 2200)))
    by (apply Z.mul_nonneg_nonneg; [lia | apply Z.pow_nonneg; lia]).
  apply (Z.mul_le_mono_pos_r _ _ (my * 2 ^ (ey + 2200)) PY). lia.
Qed.

Lemma quotient_below_1 mx my q r ex ey e' s :
  0 < my -> 0 <= q -> 0 <= r < my ->
  -2200 <= ey -> -2200 <= e' -> 0 <= s -> -2200 <= ex ->
  s = ex - ey - e' ->
  mx * 2 ^ s = my * q + r ->
  scaled mx ex <= scaled my ey ->
  r <> 0 ->
  scaled q e' < scaled 4503599627370496 (-52).
Proof.
  intros Hmy Hq Hr Hey He' Hs Hex Es Hqr Hx Hr0.
  pose proof (quotient_scaled mx my q r ex ey e' s Hmy Hq Hr Hey He' Hs Hex
                Es Hqr Hx) as H.
  replace (scaled 4503599627370496 (-52)) with (2 ^ 2200)
    by (unfold scaled; change 4503599627370496 with (2 ^ 52);
        rewrite <- Z.pow_add_r by lia; reflexivity).
  assert (PY : 0 < my * 2 ^ (ey + 2200))
    by (apply Z.mul_pos_pos; [lia | apply Z.pow_pos_nonneg; lia]).
  assert (PR : 0 < r * 2 ^ (e' + 2200 + (ey + 2200)))
    by (apply Z.mul_pos_pos; [lia | apply Z.pow_pos_nonneg; lia]).
  apply (Z.mul_lt_mono_pos_r (my * 2 ^ (ey + 2200)) _ _ PY). lia.
Qed.

(** The quotient of a negative number by a positive one that bounds its
    magnitude is a zero or a negative number of magnitude 1 at most. *)
Lemma SFdiv_within x my ey :
  valid_binary x = true ->
  valid_binary (S754_finite false my ey) = true ->
  within x my ey ->
  within (SFdiv prec emax x (S754_finite false my ey))
    4503599627370496 (-52).
Proof.
  intros Hvx Hvy Hx.
  destruct x as [s|s| |[] mx ex]; cbn [within] in Hx; try contradiction.
  { exact I. }
  destruct (valid_binary_digits _ _ _ Hvx) as [_ [_ Hex]].
  destruct (bounded_spec _ _ Hvx) as [Hex' _].
  destruct (bounded_spec _ _ Hvy) as [Hey _].
  cbn [SFdiv xorb]. unfold SFdiv_core_binary. cbv zeta.
  set (d1 := Zdigits2 (Zpos mx)). set (d2 := Zdigits2 (Zpos my)).
  set (e' := Z.min (fexp prec emax (d1 + ex - (d2 + ey))) (ex - ey)).
  set (s := ex - ey - e').
  assert (Hs : 0 <= s) by (unfold s, e'; lia).
  pose proof (fexp_floor (d1 + ex - (d2 + ey))) as Hfl.
  assert (He' : -2200 <= e') by (unfold e'; lia).
  set (m' := match s with
             | 0 => Zpos mx
             | Zpos _ => Z.shiftl (Zpos mx) s
             | Zneg _ => 0
             end).
  assert (Em' : m' = Zpos mx * 2 ^ s).
  { unfold m'. destruct s as [|p|p] eqn:Es; [lia| |lia].
    rewrite Z.shiftl_mul_pow2 by lia. reflexivity. }
  pose proof (Z_div_mod m' (Zpos my) ltac:(lia)) as Hdiv.
  destruct (Z.div_eucl m' (Zpos my)) as [q r]. destruct Hdiv as [Hqr Hr].
  assert (Ps : 0 < 2 ^ s) by (apply Z.pow_pos_nonneg; lia).
  assert (Hq : 0 <= q) by nia.
  assert (Hdq : d1 + s - d2 <= Zdigits2 q).
  { pose proof (Zdigits2_nonneg q) as Hn.
    destruct (Z.le_gt_cases (d1 + s - d2) 0) as [Hsmall|Hlarge]; [lia|].
    assert (Hlow : 2 ^ (d1 + s - d2 - 1) <= q).
    { destruct (digits2_pos_bounds mx) as [_ L1].
      destruct (digits2_pos_bounds my) as [U2 _].
      fold d1 in L1. change (Zpos (digits2_pos mx)) with d1 in L1.
      change (Zpos (digits2_pos my)) with d2 in U2.
      assert (Hd1 : 0 < d1) by (unfold d1; cbn; lia).
      assert (Hd2 : 0 < d2) by (unfold d2; cbn; lia).
      assert (E1 : 2 ^ (d1 + s) = 2 ^ (d1 + s - d2 - 1) * (2 * 2 ^ d2)).
      { change 2 with (2 ^ 1) at 3. rewrite <- !Z.pow_add_r by lia.
        f_equal. lia. }
      rewrite Z.pow_add_r in E1 by lia.
      assert (Pk : 0 < 2 ^ (d1 + s - d2 - 1))
        by (apply Z.pow_pos_nonneg; lia).
      revert E1 L1 U2 Pk Ps Hqr Hr Em' Hq.
      generalize (2 ^ (d1 + s - d2 - 1)) (2 ^ d1) (2 ^ d2) (2 ^ s).
      intros K D1 D2 S E1 L1 U2 Pk Ps Hqr Hr Em' Hq.
      assert (A1 : D1 * S <= 2 * (Zpos mx * S)) by nia.
      assert (A2 : Zpos mx * S < (q + 1) * Zpos my) by nia.
      assert (A3 : (q + 1) * Zpos my <= (q + 1) * D2) by nia.
      assert (A4 : K * D2 < (q + 1) * D2) by nia.
      assert (A5 : 0 < D2) by lia.
      apply Z.mul_lt_mono_pos_r in A4; lia. }
    pose proof (Zdigits2_lower q (d1 + s - d2 - 1) ltac:(lia) Hlow). lia. }
  apply round_within.
  - exact Hq.
  - exact He'.
  - eapply Z.le_trans; [apply Z.le_min_l|]. apply fexp_mono. unfold s in Hdq.
    lia.
  - reflexivity.
  - apply (quotient_at_most_1 (Zpos mx) (Zpos my) q r ex ey e' s);
      try lia; try exact Hx; try reflexivity.
  - intro Hl. apply new_location_exact in Hl.
    apply (quotient_below_1 (Zpos mx) (Zpos my) q r ex ey e' s);
      try lia; try exact Hx; try reflexivity.
Qed.

(** *** The product with 100 *)

Lemma SFmul_100_within x :
  valid_binary x = true ->
  within x 4503599627370496 (-52) ->
  within (SFmul prec emax x (S754_finite false 7036874417766400 (-46)))
    7036874417766400 (-46).
Proof.
  intros Hvx Hx.
  destruct x as [s|s| |[] mx ex]; cbn [within] in Hx; try contradiction.
  { exact I. }
  destruct (bounded_spec _ _ Hvx) as [Hex _].
  cbn [SFmul xorb].
  assert (Hbig : 2 ^ 52 <= Zpos (mx * 7036874417766400)).
  { rewrite Pos2Z.inj_mul. change (2 ^ 52) with 4503599627370496. lia. }
  apply round_within.
  - lia.
  - lia.
  - pose proof (Zdigits2_lower _ 52 ltac:(lia) Hbig) as Hd.
    unfold fexp. change prec with 53. lia.
  - reflexivity.
  - unfold scaled in *. rewrite Pos2Z.inj_mul.
    replace (ex + -46 + 2200) with (ex + 2154) by lia.
    change (-46 + 2200) with 2154.
    change (-52 + 2200) with 2148 in Hx.
    assert (E1 : 2 ^ (ex + 2200) = 2 ^ 46 * 2 ^ (ex + 2154)).
    { rewrite <- Z.pow_add_r by lia. f_equal. lia. }
    assert (E2 : 4503599627370496 * 2 ^ 2148 = 2 ^ 46 * 2 ^ 2154).
    { change 4503599627370496 with (2 ^ 52).
      rewrite <- !Z.pow_add_r by lia. reflexivity. }
    rewrite E1, E2 in Hx.
    assert (P : 0 < 2 ^ 46) by (apply Z.pow_pos_nonneg; lia).
    assert (Hx' : Zpos mx * 2 ^ (ex + 2154) <= 2 ^ 2154).
    { apply (Z.mul_le_mono_pos_l _ _ (2 ^ 46) P).
      rewrite <- Hx. ring_simplify. lia. }
    revert Hx'. generalize (2 ^ (ex + 2154)) (2 ^ 2154). intros A B Hx'.
    nia.
  - congruence.
Qed.

(** A zero or a negative binary64 number of magnitude 100 at most is not
    below -100. *)
Lemma within_100_not_below x :
  valid_binary x = true ->
  within x 7036874417766400 (-46) ->
  match rank x with
  | Some r => ~ rank_lt r (-1, 46, Zneg 7036874417766400)
  | None => False
  end.
Proof.
  intros Hvx Hx.
  destruct x as [s|s| |[] mx ex]; cbn [within] in Hx; try contradiction.
  - cbn [rank rank_lt]. lia.
  - cbn [rank rank_lt].
    destruct (scaled_le_canonical mx ex 7036874417766400 (-46) Hvx eq_refl Hx)
      as [H|[H1 H2]]; lia.
Qed.

(** Line 115 on positive prices, the most recent one not above the highest
    one: the drawdown is not below -100, rounded three times as it is. *)
Lemma percent_dropped_not_below_minus_100 (priceToday maxPrice : float) :
  flt 0 priceToday -> fle priceToday maxPrice ->
  ~ flt (percent_dropped priceToday maxPrice) (-100).
Proof.
  intros Hp Hle. unfold flt at 1.
  pose proof (Prim2SF_valid (percent_dropped priceToday maxPrice)) as Hvpd.
  pose proof (Prim2SF_valid ((priceToday - maxPrice) / maxPrice)) as Hvq.
  pose proof (Prim2SF_valid (priceToday - maxPrice)) as Hvs.
  pose proof (Prim2SF_valid priceToday) as Hvp.
  pose proof (Prim2SF_valid maxPrice) as Hvm.
  change (Prim2SF (-100)) with (S754_finite true 7036874417766400 (-46)).
  cbn [rank].
  unfold percent_dropped in *.
  rewrite mul_spec in *. rewrite div_spec in *. rewrite sub_spec in *.
  change (Prim2SF 100) with (S754_finite false 7036874417766400 (-46)) in *.
  unfold flt in Hp. unfold fle in Hle.
  change (Prim2SF 0) with (S754_zero false) in Hp.
  destruct (Prim2SF priceToday) as [sp|[]| |[] mp ep]; cbn in Hp;
    try contradiction; try lia;
    destruct (Prim2SF maxPrice) as [sm|[]| |[] mm em];
    cbn [rank rank_le] in Hle; try contradiction; try lia;
    try (cbn; tauto).
  pose proof (SFsub_within mp ep mm em Hvp Hvm Hle) as Hs.
  pose proof (SFdiv_within _ mm em Hvs Hvm Hs) as Hq.
  pose proof (SFmul_100_within _ Hvq Hq) as Hpd.
  pose proof (within_100_not_below _ Hvpd Hpd) as Hfinal.
  unfold SF64mul, SF64div, SF64sub in *.
  destruct (rank _); [exact Hfinal | tauto].
Qed.

(** X8.  Positive prices never lose 100% or more: with a threshold of 100
    or above, a ticker whose closing prices are all positive leaves every
    message as it was, if it returns at all. *)
Theorem threshold_100_reports_no_positive_ticker
    yf recentPeak recentTrend threshold debug ticker closes message message' :
  yf ticker recentPeak = FetchOk closes ->
  Forall (fun price => (0 <? price)%float = true) closes ->
  (100 <=? threshold)%float = true ->
  result (ticker_body yf recentPeak recentTrend threshold debug
            ticker message) = Return message' ->
  message' = message.
Proof.
  intros Hyf Hpos Hthr. unfold ticker_body. run_bind. rewrite Hyf. run_bind.
  destruct (result (getitem closes (- recentTrend))) as [a|e];
    [|discriminate].
  run_bind.
  destruct (result (getitem closes TODAY)) as [b|e] eqn:Hb;
    [|discriminate].
  destruct (a <? b)%float.
  - run_bind. now intros [= <-].
  - run_bind. change (-1) with TODAY. rewrite Hb. run_bind. cbv zeta.
    assert (Hin : In b closes) by (eapply getitem_In; eassumption).
    assert (Hb0 : flt 0 b).
    { apply ltb_flt. rewrite Forall_forall in Hpos. now apply Hpos. }
    assert (Hle : fle b (max_price closes)).
    { apply leb_fle. apply max_price_upper_bound; [exact Hin|].
      eapply flt_number_r. eassumption. }
    destruct (percent_dropped b (max_price closes) <? - threshold)%float
      eqn:E.
    + exfalso. apply ltb_flt in E. apply leb_fle in Hthr.
      apply fle_opp in Hthr.
      exact (percent_dropped_not_below_minus_100 b (max_price closes) Hb0 Hle
               (flt_fle_trans _ _ _ E Hthr)).
    + now intros [= <-].
Qed.

Lemma threshold_100_reports_no_positive_ticker_witness :
  Forall (fun price => (0 <? price)%float = true) [100; 50; 60]%float
  /\ (100 <=? 100)%float = true
  /\ result (ticker_body sample_history 30 1 100 false "RISING" "alerts")
     = Return "alerts".
Proof.
  assert (Hpos : Forall (fun price => (0 <? price)%float = true)
                   [100; 50; 60]%float)
    by (repeat constructor).
  assert (Hthr : (100 <=? 100)%float = true) by reflexivity.
  split; [exact Hpos|]. split; [exact Hthr|].
  destruct (result (ticker_body sample_history 30 1 100 false "RISING"
                      "alerts")) as [message'|e] eqn:Hret.
  - f_equal.
    exact (threshold_100_reports_no_positive_ticker sample_history 30 1
             100%float false "RISING" _ "alerts" message' eq_refl Hpos Hthr
             Hret).
  - discriminate Hret.
Defined.

(** ** The highest price, whatever the prices are *)

Lemma max_price_no_positive closes :
  Forall (fun price => (0 <? price)%float = false) closes ->
  max_price closes = 0%float.
Proof.
  unfold max_price. induction 1 as [|p closes Hp _ IH]; [reflexivity|].
  cbn [fold_left]. unfold higher at 2. now rewrite Hp.
Qed.

(** X9.  [maxPrice] is the largest of 0 and the closing prices of the
    window, because the search of lines 106-110 starts from 0: it is not
    negative, no price is above it (a price that is a number is at most
    [maxPrice]), and it is 0 or a price of the window.  On a window without
    a positive price it is 0, so that line 115 divides by zero. *)
Theorem max_price_is_max_with_zero closes :
  (0 <=? max_price closes)%float = true
  /\ Forall (fun price => (max_price closes <? price)%float = false) closes
  /\ Forall (fun price =>
               Prim2SF price <> S754_nan ->
               (price <=? max_price closes)%float = true) closes
  /\ (max_price closes = 0%float \/ In (max_price closes) closes)
  /\ (Forall (fun price => (0 <? price)%float = false) closes ->
      max_price closes = 0%float).
Proof.
  split; [apply leb_fle, fold_higher_ge_init, zero_number|].
  split; [apply max_price_not_below|].
  split.
  { apply Forall_forall. intros price Hin Hnum.
    now apply max_price_upper_bound. }
  split; [apply fold_higher_In | apply max_price_no_positive].
Qed.

Lemma max_price_is_max_with_zero_witness :
  max_price [-3; -1; -2]%float = 0%float.
Proof.
  destruct (max_price_is_max_with_zero [-3; -1; -2]%float)
    as [_ [_ [_ [_ Hzero]]]].
  apply Hzero. repeat constructor.
Defined.

(** ** The trend gate with [recentTrend = 0] *)

Lemma getitem_oldest oldest rest :
  getitem (oldest :: rest) 0 = ret oldest.
Proof.
  unfold getitem. cbv zeta.
  replace (0 <? 0) with false by reflexivity.
  replace ((0 <=? 0) && (0 <? Z.of_nat (List.length (oldest :: rest))))
    with true; [reflexivity|].
  symmetry. apply andb_true_iff. split; [reflexivity|].
  apply Z.ltb_lt. cbn [List.length]. lia.
Qed.

(** X10.  With [recentTrend = 0] the position [-recentTrend] is the
    position 0: the trend gate compares the oldest price of the window, not
    a recent one, with the most recent price.  The ticker is skipped when
    the oldest price is below the most recent one, and the threshold decides
    otherwise. *)
Theorem recentTrend_zero_compares_with_oldest
    yf recentPeak threshold debug ticker oldest rest message :
  yf ticker recentPeak = FetchOk (oldest :: rest) ->
  let closes := oldest :: rest in
  let priceToday := List.last closes 0%float in
  let percentDropped := percent_dropped priceToday (max_price closes) in
  result (ticker_body yf recentPeak 0 threshold debug ticker message)
  = Return (if (oldest <? priceToday)%float then message
            else if (percentDropped <? - threshold)%float
                 then message ++ dropped_line ticker percentDropped
                 else message).
Proof.
  intros Hyf closes priceToday percentDropped.
  assert (Hne : closes <> []) by discriminate.
  pose proof (getitem_today closes Hne) as Hnow. fold priceToday in Hnow.
  assert (Hago : result (getitem closes (- 0)) = Return oldest)
    by (change (- 0) with 0; unfold closes; now rewrite getitem_oldest).
  assert (Hnow' : result (getitem closes TODAY) = Return priceToday)
    by (unfold TODAY; now rewrite Hnow).
  destruct (oldest <? priceToday)%float eqn:Hlt.
  - eapply ticker_body_gate_skips; eassumption.
  - eapply ticker_body_gate_passes; eassumption.
Qed.

Lemma recentTrend_zero_compares_with_oldest_witness :
  result (ticker_body sample_history 30 0 15 false "TICKER" EmptyString)
  = Return ("TICKER dropped 20.0%" ++ newline)
  /\ result (ticker_body (fun _ _ => FetchOk [70; 100; 80]%float) 30 0 15 false
               "TICKER" EmptyString)
     = Return EmptyString.
Proof.
  split.
  - exact (recentTrend_zero_compares_with_oldest sample_history 30 15%float
             false "TICKER" 100%float [90; 80]%float EmptyString eq_refl).
  - exact (recentTrend_zero_compares_with_oldest
             (fun _ _ => FetchOk [70; 100; 80]%float) 30 15%float false
             "TICKER" 70%float [100; 80]%float EmptyString eq_refl).
Defined.

(** ** What [send_message] leaves in the trace *)

Lemma send_message_network post botID chatID message debug :
  network (trace (send_message post botID chatID message debug))
  = [Post (bot_uri botID) chatID message].
Proof.
  unfold send_message, bot_uri.
  destruct (post _ chatID message) as [err|code]; destruct debug; reflexivity.
Qed.

(** X11.  [send_message] reaches the network once, with a post to the
    address of the bot that carries the chat and the text it was given.  An
    error is logged only for a post that raised, and only with the logging
    on: a message the endpoint refuses with a status other than 200 leaves
    no error in the log. *)
Theorem send_message_posts_once_and_logs_raises
    post botID chatID message debug :
  let run := send_message post botID chatID message debug in
  network (trace run) = [Post (bot_uri botID) chatID message]
  /\ (forall err,
        In (Log ERROR (ErrorSendingMessage err)) (trace run)
        <-> debug = true
            /\ post (bot_uri botID) chatID message = PostRaised err)
  /\ (forall status_code,
        post (bot_uri botID) chatID message = PostStatus status_code ->
        forall r, ~ In (Log ERROR r) (trace run)).
Proof.
  intro run. split; [apply send_message_network|].
  unfold run, send_message, bot_uri.
  destruct (post _ chatID message) as [err'|code]; destruct debug; cbn;
    (split; [intro err; split | intros status_code Hpost r]).
  all: try (intros [H|[H|[H|[]]]]; try discriminate H).
  all: try (intros [H|[H|[]]]; try discriminate H).
  all: try (intros [H|[]]; try discriminate H).
  all: try (intros [H1 H2]; try discriminate H1; try discriminate H2).
  all: try discriminate Hpost.
  - injection H as <-. now split.
  - injection H2 as <-. right. right. now left.
Qed.

Lemma send_message_posts_once_and_logs_raises_witness :
  sample_post 500 (bot_uri "bot") "chat" "text" = PostStatus 500
  /\ ~ In (Log ERROR (ErrorSendingMessage "HTTPError()"))
         (trace (send_message (sample_post 500) "bot" "chat" "text" true)).
Proof.
  split; [reflexivity|].
  destruct (send_message_posts_once_and_logs_raises (sample_post 500)
              "bot" "chat" "text" true) as [_ [_ Hquiet]].
  exact (Hquiet 500 eq_refl _).
Defined.

(** ** The network activity and the log of a whole run *)

Ltac run_logs :=
  repeat progress
    (rewrite ?trace_bind, ?logs_app, ?trace_getitem;
     cbn [trace result fst snd emit ret raise log_if]).

Lemma ticker_body_quiet yf recentPeak recentTrend threshold ticker message :
  logs (trace (ticker_body yf recentPeak recentTrend threshold false
                 ticker message)) = [].
Proof.
  unfold ticker_body. run_logs.
  destruct (yf ticker recentPeak) as [err|closes].
  - run_logs. reflexivity.
  - run_logs.
    destruct (result (getitem closes (- recentTrend))) as [a|e];
      [|reflexivity].
    run_logs.
    destruct (result (getitem closes TODAY)) as [b|e] eqn:Hb;
      [|reflexivity].
    destruct (a <? b)%float.
    + run_logs. reflexivity.
    + run_logs. change (-1) with TODAY. rewrite Hb. run_logs.
      cbv zeta. destruct (PrimFloat.ltb _ _); reflexivity.
Qed.

Lemma ticker_loop_quiet yf recentPeak recentTrend threshold tickers :
  forall message,
    logs (trace (ticker_loop yf recentPeak recentTrend threshold false
                   tickers message)) = [].
Proof.
  induction tickers as [|t tickers IH]; intro message; [reflexivity|].
  cbn [ticker_loop]. rewrite trace_bind, logs_app, ticker_body_quiet.
  destruct (result (ticker_body _ _ _ _ _ t message)); [apply IH|].
  reflexivity.
Qed.

Lemma detect_quiet yf recentPeak recentTrend threshold tickers :
  logs (trace (create_ticker_message yf recentPeak recentTrend threshold
                 false tickers)) = [].
Proof.
  unfold create_ticker_message. rewrite trace_bind, logs_app.
  cbn [log_if ret trace result fst snd logs filter app].
  apply ticker_loop_quiet.
Qed.

Lemma send_message_quiet post botID chatID message :
  logs (trace (send_message post botID chatID message false)) = [].
Proof.
  unfold send_message.
  destruct (post _ chatID message) as [err|code]; reflexivity.
Qed.

Section MainTraces.

Variable w : world.
Variable c : config.
Hypothesis Hconfig : config_json w = inr c.
Hypothesis Hlogging : loggingEnabled c = false \/ logging_setup w = None.

Local Abbreviation detect :=
  (create_ticker_message (yf_history w) (recentPeak c) (recentTrend c)
     (percentDropped c) (loggingEnabled c) (tickers c)).

(** The network events of a run that gets past the check of line 150:
    those of the detector, then the post of the message or the probe with
    the post that reports the outage. *)
Lemma main_network :
  recentTrend c <= recentPeak c ->
  network (trace (main w)) =
  (network (trace detect)
   ++ match result detect with
      | Return message =>
          if negb (message =? EmptyString)%string then
            [Post (bot_uri (telegramBotId c)) (telegramChatId c) message]
          else
            ProbeRequest
            :: match yf_probe w with
               | Some err =>
                   [Post (bot_uri (telegramBotId c)) (telegramChatId c)
                      ("Failed to reach Yahoo Finance API. Error: " ++ err)]
               | None => []
               end
      | Raise _ => []
      end)%list.
Proof.
  intro Hinv.
  unfold main. rewrite Hconfig. cbv zeta.
  assert (Hge : (recentPeak c >=? recentTrend c) = true)
    by (rewrite Z.geb_leb; now apply Z.leb_le).
  rewrite Hge.
  assert (Hsetup :
            exists t,
              (if loggingEnabled c
               then (emit (LoggingSetup (logFileName c)) ;;
                     ret (logging_setup w))
               else ret None) = (Return None, t) /\ network t = []).
  { destruct Hlogging as [-> | ->].
    - eexists. split; reflexivity.
    - destruct (loggingEnabled c); eexists; split; reflexivity. }
  destruct Hsetup as [t [-> Ht]].
  rewrite trace_bind, network_app. cbn [trace result fst snd emit].
  rewrite trace_bind, network_app. cbn [trace result fst snd].
  rewrite Ht.
  rewrite trace_bind, network_app. cbn [trace result fst snd ret].
  rewrite trace_bind, network_app.
  cbn [network filter is_network app]. fold (network (trace detect)).
  f_equal.
  destruct (result detect) as [message|e]; [|reflexivity].
  destruct (negb (message =? EmptyString)%string).
  - rewrite trace_bind, network_app, network_log_if, result_log_if.
    rewrite trace_bind, network_app, send_message_network.
    rewrite send_message_result. cbn [result fst app].
    destruct (match requests_post w _ _ _ with
              | PostRaised _ => false | PostStatus code => code =? 200
              end); reflexivity.
  - rewrite trace_bind, network_app. cbn [trace result fst snd emit].
    destruct (yf_probe w) as [err|]; [|reflexivity].
    rewrite trace_bind, network_app, network_log_if, result_log_if.
    rewrite trace_bind, network_app, send_message_network.
    rewrite send_message_result. reflexivity.
Qed.

End MainTraces.

(** X12.  The network activity of a run whose configuration passes the
    check and whose detector returns: one history request per ticker, in
    order; then, for a message that is not empty, one post of exactly that
    message to the configured bot and chat, and no probe; for an empty
    message, the probe, followed by one post that reports the outage when
    the probe fails and by nothing when it succeeds. *)
Theorem main_network_activity (w : world) (c : config) message :
  config_json w = inr c ->
  loggingEnabled c = false \/ logging_setup w = None ->
  recentTrend c <= recentPeak c ->
  result (create_ticker_message (yf_history w) (recentPeak c) (recentTrend c)
            (percentDropped c) (loggingEnabled c) (tickers c))
  = Return message ->
  network (trace (main w)) =
  (map (history_request (recentPeak c)) (tickers c)
   ++ (if negb (message =? EmptyString)%string then
         [Post (bot_uri (telegramBotId c)) (telegramChatId c) message]
       else
         ProbeRequest
         :: match yf_probe w with
            | Some err =>
                [Post (bot_uri (telegramBotId c)) (telegramChatId c)
                   ("Failed to reach Yahoo Finance API. Error: " ++ err)]
            | None => []
            end))%list.
Proof.
  intros Hcfg Hlogging Hinv Hdetect.
  rewrite (main_network w c Hcfg Hlogging Hinv), Hdetect.
  rewrite detect_network. rewrite detect_result in Hdetect.
  now rewrite (ticker_loop_network_returns _ _ _ _ _ _ _ _ Hdetect).
Qed.

Lemma main_network_activity_witness :
  network (trace (main (sample_world ["RISING"; "TICKER"] 30 2 None 200)))
  = [HistoryRequest "RISING" 30; HistoryRequest "TICKER" 30;
     Post "https://api.telegram.org/botbot/sendMessage" "chat"
       ("TICKER dropped 20.0%" ++ newline)]
  /\ network (trace (main (sample_world ["RISING"] 30 2
                             (Some "Exception()") 200)))
     = [HistoryRequest "RISING" 30; ProbeRequest;
        Post "https://api.telegram.org/botbot/sendMessage" "chat"
          "Failed to reach Yahoo Finance API. Error: Exception()"].
Proof.
  split.
  - exact (main_network_activity
             (sample_world ["RISING"; "TICKER"] 30 2 None 200)
             (sample_config ["RISING"; "TICKER"] 30 2)
             ("TICKER dropped 20.0%" ++ newline)
             eq_refl (or_introl eq_refl) ltac:(discriminate) eq_refl).
  - exact (main_network_activity
             (sample_world ["RISING"] 30 2 (Some "Exception()") 200)
             (sample_config ["RISING"] 30 2) EmptyString
             eq_refl (or_introl eq_refl) ltac:(discriminate) eq_refl).
Defined.

(** X13.  An exception of the detector goes through [main] as it is:
    [main] raises it, returns no status, and the run ends without a post and
    without a probe; its only network events are history requests for a
    front part of the tickers.  Nobody is notified of the failed run. *)
Theorem detector_exception_ends_run_silently (w : world) (c : config) e :
  config_json w = inr c ->
  loggingEnabled c = false \/ logging_setup w = None ->
  recentTrend c <= recentPeak c ->
  result (create_ticker_message (yf_history w) (recentPeak c) (recentTrend c)
            (percentDropped c) (loggingEnabled c) (tickers c))
  = Raise e ->
  result (main w) = Raise e
  /\ exists n,
       network (trace (main w))
       = map (history_request (recentPeak c)) (firstn n (tickers c)).
Proof.
  intros Hcfg Hlogging Hinv Hdetect. split.
  - rewrite (main_result w c Hcfg Hlogging), Hdetect.
    replace (recentPeak c >=? recentTrend c) with true; [reflexivity|].
    symmetry. rewrite Z.geb_leb. now apply Z.leb_le.
  - rewrite (main_network w c Hcfg Hlogging Hinv), Hdetect, app_nil_r.
    rewrite detect_network. apply ticker_loop_network_front.
Qed.

Lemma detector_exception_ends_run_silently_witness :
  result (main (sample_world ["TICKER"; "SHORT"; "RISING"] 7 7 None 200))
  = Raise IndexError
  /\ exists n,
       network (trace (main (sample_world ["TICKER"; "SHORT"; "RISING"]
                               7 7 None 200)))
       = map (history_request 7) (firstn n ["TICKER"; "SHORT"; "RISING"]).
Proof.
  exact (detector_exception_ends_run_silently
           (sample_world ["TICKER"; "SHORT"; "RISING"] 7 7 None 200)
           (sample_config ["TICKER"; "SHORT"; "RISING"] 7 7) IndexError
           eq_refl (or_introl eq_refl) ltac:(discriminate) eq_refl).
Defined.

(** X14.  With [loggingEnabled] false a run never touches the log: no log
    record is written and the log file is not set up, whatever the
    collaborators answer and however the run ends. *)
Theorem no_logging_when_disabled (w : world) (c : config) :
  config_json w = inr c ->
  loggingEnabled c = false ->
  logs (trace (main w)) = [].
Proof.
  intros Hcfg Hoff. unfold main. rewrite Hcfg. cbv zeta. rewrite Hoff.
  run_logs.
  destruct (recentPeak c >=? recentTrend c); [|reflexivity].
  run_logs. rewrite detect_quiet.
  destruct (result (create_ticker_message _ _ _ _ _ _)) as [message|e];
    [|reflexivity].
  destruct (negb (message =? EmptyString)%string).
  - run_logs. rewrite send_message_quiet.
    destruct (result (send_message _ _ _ _ _)) as [[|]|e']; reflexivity.
  - run_logs. destruct (yf_probe w) as [err|]; [|reflexivity].
    run_logs. rewrite send_message_quiet.
    destruct (result (send_message _ _ _ _ _)); reflexivity.
Qed.

Lemma no_logging_when_disabled_witness :
  logs (trace (main (sample_world ["TICKER"; "GONE"] 30 2 None 500))) = []
  /\ logs (trace (main (sample_world_logging ["GONE"] 30 2 None 500)))
     = [LoggingSetup "stonks.log";
        Log DEBUG (EnteringCreateTickerMessage ["GONE"] 30 2 15);
        Log DEBUG (WorkingOnTicker "GONE");
        Log ERROR (FailedToRetrievePrices "GONE" "ConnectionError()")].
Proof.
  split; [|reflexivity].
  exact (no_logging_when_disabled
           (sample_world ["TICKER"; "GONE"] 30 2 None 500)
           (sample_config ["TICKER"; "GONE"] 30 2) eq_refl eq_refl).
Defined.

(** X15.  With a logging set-up that succeeds, the status of a run does not
    depend on [loggingEnabled] or on [logFileName]: two runs that agree on
    the other keys of the configuration and on the answers of the provider
    and of the chat endpoint return the same status or raise the same
    exception. *)
Theorem main_status_any_logging (w1 w2 : world) (c1 c2 : config) :
  config_json w1 = inr c1 -> config_json w2 = inr c2 ->
  loggingEnabled c1 = false \/ logging_setup w1 = None ->
  loggingEnabled c2 = false \/ logging_setup w2 = None ->
  tickers c1 = tickers c2 ->
  recentPeak c1 = recentPeak c2 ->
  recentTrend c1 = recentTrend c2 ->
  percentDropped c1 = percentDropped c2 ->
  telegramBotId c1 = telegramBotId c2 ->
  telegramChatId c1 = telegramChatId c2 ->
  yf_history w1 = yf_history w2 ->
  yf_probe w1 = yf_probe w2 ->
  requests_post w1 = requests_post w2 ->
  result (main w1) = result (main w2).
Proof.
  intros Hcfg1 Hcfg2 Hlog1 Hlog2 Htickers Hpeak Htrend Hthr Hbot Hchat
         Hyf Hprobe Hpost.
  rewrite (main_result w1 c1 Hcfg1 Hlog1), (main_result w2 c2 Hcfg2 Hlog2).
  rewrite Htickers, Hpeak, Htrend, Hthr, Hbot, Hchat, Hyf, Hprobe, Hpost.
  rewrite !detect_result.
  rewrite (ticker_loop_result_any_debug _ _ _ _
             (loggingEnabled c1) (loggingEnabled c2)).
  destruct (recentPeak c2 >=? recentTrend c2); [|reflexivity].
  destruct (result (ticker_loop _ _ _ _ _ _ _)) as [message|e];
    [|reflexivity].
  now rewrite !send_message_result.
Qed.

Lemma main_status_any_logging_witness :
  result (main (sample_world_logging ["TICKER"] 30 2 None 500))
  = result (main (sample_world ["TICKER"] 30 2 None 500)).
Proof.
  exact (main_status_any_logging
           (sample_world_logging ["TICKER"] 30 2 None 500)
           (sample_world ["TICKER"] 30 2 None 500)
           (sample_config_logging ["TICKER"] 30 2)
           (sample_config ["TICKER"] 30 2)
           eq_refl eq_refl (or_intror eq_refl) (or_introl eq_refl)
           eq_refl eq_refl eq_refl eq_refl eq_refl eq_refl
           eq_refl eq_refl eq_refl).
Defined.

(** ** The value [main] returns *)

(** X18.  The value [main] returns, which line 179 drops.  [main] returns
    -1 when the configuration cannot be
    loaded and when the logging set-up fails.  Otherwise, a configuration
    with [recentPeak < recentTrend] makes [main] raise [AssertionError];
    with [recentPeak >= recentTrend] and a detector that returns its
    message: a message that is not empty is posted once, and [main] returns
    0 when the post answers 200 and -1 when it does not; on an empty
    message [main] returns 0 without any post when the probe succeeds, and
    -1 after exactly one post when the probe fails. *)
Theorem main_status (w : world) :
  (forall err, config_json w = inl err -> result (main w) = Return (-1))
  /\ (forall c, config_json w = inr c ->
      let debug := loggingEnabled c in
      let detect :=
        create_ticker_message (yf_history w) (recentPeak c) (recentTrend c)
          (percentDropped c) debug (tickers c) in
      let uri :=
        "https://api.telegram.org/bot" ++ telegramBotId c ++ "/sendMessage" in
      (forall err,
          debug = true -> logging_setup w = Some err ->
          result (main w) = Return (-1))
      /\ (debug = false \/ logging_setup w = None ->
          (recentPeak c < recentTrend c ->
           result (main w) = Raise (AssertionError recentPeak_message))
          /\ (recentTrend c <= recentPeak c ->
              forall message, result detect = Return message ->
              (message <> EmptyString ->
               posts (trace (main w)) = 1%nat
               /\ (requests_post w uri (telegramChatId c) message
                   = PostStatus 200 ->
                   result (main w) = Return 0)
               /\ (requests_post w uri (telegramChatId c) message
                   <> PostStatus 200 ->
                   result (main w) = Return (-1)))
              /\ (message = EmptyString ->
                  (yf_probe w = None ->
                   result (main w) = Return 0
                   /\ posts (trace (main w)) = 0%nat)
                  /\ (forall err, yf_probe w = Some err ->
                      result (main w) = Return (-1)
                      /\ posts (trace (main w)) = 1%nat))))).
Proof.
  split.
  - intros err Hcfg. unfold main. rewrite Hcfg. reflexivity.
  - intros c Hcfg debug detect uri. split.
    + intros err Hdebug Hsetup. unfold main. rewrite Hcfg. cbv zeta.
      fold debug. rewrite Hdebug, Hsetup. reflexivity.
    + intro Hlogging. split.
      * intro Hlt. rewrite (main_result w c Hcfg Hlogging).
        replace (recentPeak c >=? recentTrend c) with false; [reflexivity|].
        symmetry. rewrite Z.geb_leb. now apply Z.leb_gt.
      * intros Hinv message Hdetect.
        pose proof (main_posts w c Hcfg Hlogging message Hinv Hdetect)
          as Hposts.
        pose proof (main_result w c Hcfg Hlogging) as Hresult.
        replace (recentPeak c >=? recentTrend c) with true in Hresult
          by (symmetry; rewrite Z.geb_leb; now apply Z.leb_le).
        fold debug in Hresult. fold detect in Hresult.
        rewrite Hdetect in Hresult.
        rewrite send_message_result in Hresult. fold uri in Hresult.
        split.
        -- intro Hne.
           assert (Hnonempty : negb (message =? EmptyString)%string = true).
           { apply negb_true_iff. now apply String.eqb_neq. }
           rewrite Hnonempty in Hposts, Hresult.
           split; [exact Hposts|]. split.
           ++ intro Hpost. rewrite Hresult, Hpost. reflexivity.
           ++ intro Hpost. rewrite Hresult.
              destruct (requests_post w uri (telegramChatId c) message)
                as [err|code]; [reflexivity|].
              destruct (code =? 200) eqn:E; [|reflexivity].
              apply Z.eqb_eq in E. subst. contradiction.
        -- intros ->. cbn [String.eqb negb] in Hposts, Hresult.
           split.
           ++ intro Hprobe. rewrite Hprobe in Hposts, Hresult. now split.
           ++ intros err Hprobe. rewrite Hprobe in Hposts, Hresult.
              now split.
Qed.

Lemma main_status_witness :
  result (main {| config_json := inl "FileNotFoundError()";
                  logging_setup := None;
                  yf_history := sample_history;
                  yf_probe := None;
                  requests_post := sample_post 200 |}) = Return (-1)
  /\ result (main (sample_world ["TICKER"] 5 7 None 200))
     = Raise (AssertionError recentPeak_message)
  /\ result (main (sample_world ["TICKER"] 30 2 None 200)) = Return 0
  /\ result (main (sample_world ["TICKER"] 30 2 None 500)) = Return (-1)
  /\ (result (main (sample_world ["RISING"] 30 2 None 200)) = Return 0
      /\ posts (trace (main (sample_world ["RISING"] 30 2 None 200))) = 0%nat)
  /\ (result (main (sample_world ["RISING"] 30 2 (Some "Exception()") 200))
      = Return (-1)
      /\ posts (trace (main (sample_world ["RISING"] 30 2
                               (Some "Exception()") 200))) = 1%nat).
Proof.
  split.
  { destruct (main_status
                {| config_json := inl "FileNotFoundError()";
                   logging_setup := None;
                   yf_history := sample_history;
                   yf_probe := None;
                   requests_post := sample_post 200 |}) as [Hload _].
    apply (Hload "FileNotFoundError()"). reflexivity. }
  split.
  { destruct (main_status (sample_world ["TICKER"] 5 7 None 200))
      as [_ Hloaded].
    destruct (Hloaded _ eq_refl) as [_ Hrun].
    destruct (Hrun (or_introl eq_refl)) as [Hviolated _].
    apply Hviolated. reflexivity. }
  split.
  { destruct (main_status (sample_world ["TICKER"] 30 2 None 200))
      as [_ Hloaded].
    destruct (Hloaded _ eq_refl) as [_ Hrun].
    destruct (Hrun (or_introl eq_refl)) as [_ Hchecked].
    destruct (Hchecked ltac:(discriminate) _ eq_refl) as [Hmessage _].
    destruct (Hmessage ltac:(discriminate)) as [_ [Hsent _]].
    apply Hsent. reflexivity. }
  split.
  { destruct (main_status (sample_world ["TICKER"] 30 2 None 500))
      as [_ Hloaded].
    destruct (Hloaded _ eq_refl) as [_ Hrun].
    destruct (Hrun (or_introl eq_refl)) as [_ Hchecked].
    destruct (Hchecked ltac:(discriminate) _ eq_refl) as [Hmessage _].
    destruct (Hmessage ltac:(discriminate)) as [_ [_ Hfailed]].
    apply Hfailed. discriminate. }
  split.
  { destruct (main_status (sample_world ["RISING"] 30 2 None 200))
      as [_ Hloaded].
    destruct (Hloaded _ eq_refl) as [_ Hrun].
    destruct (Hrun (or_introl eq_refl)) as [_ Hchecked].
    destruct (Hchecked ltac:(discriminate) _ eq_refl) as [_ Hempty].
    destruct (Hempty eq_refl) as [Hreachable _].
    apply Hreachable. reflexivity. }
  { destruct (main_status
                (sample_world ["RISING"] 30 2 (Some "Exception()") 200))
      as [_ Hloaded].
    destruct (Hloaded _ eq_refl) as [_ Hrun].
    destruct (Hrun (or_introl eq_refl)) as [_ Hchecked].
    destruct (Hchecked ltac:(discriminate) _ eq_refl) as [_ Hempty].
    destruct (Hempty eq_refl) as [_ Houtage].
    apply (Houtage "Exception()"). reflexivity. }
Defined.

(** ** What the operating system sees of a run *)

(** X16.  What the operating system sees of a run.  The script ends with
    the status 0 when the configuration cannot be loaded and when the
    logging set-up fails; past these, it ends with the status 1 exactly when
    the check [recentPeak >= recentTrend] fails or some ticker does not get
    past line 100, and with 0 in every other case: a post that failed and a
    provider that cannot be reached, for which [main] returns -1, end with
    the status 0 too. *)
Theorem exit_status_is_1_only_after_an_exception (w : world) :
  (forall err, config_json w = inl err -> exit_status w = 0)
  /\ (forall c, config_json w = inr c ->
      (forall err,
          loggingEnabled c = true -> logging_setup w = Some err ->
          exit_status w = 0)
      /\ (loggingEnabled c = false \/ logging_setup w = None ->
          (exit_status w = 0 \/ exit_status w = 1)
          /\ (exit_status w = 1
              <-> recentPeak c < recentTrend c
                  \/ forallb (survives (yf_history w) (recentPeak c)
                                (recentTrend c)) (tickers c) = false))).
Proof.
  split.
  - intros err Hcfg. rewrite exit_status_of_main.
    unfold main. now rewrite Hcfg.
  - intros c Hcfg. split.
    + intros err Hon Hsetup. rewrite exit_status_of_main.
      unfold main. rewrite Hcfg. cbv zeta. now rewrite Hon, Hsetup.
    + intro Hlogging. rewrite exit_status_of_main.
      rewrite (main_result w c Hcfg Hlogging), detect_result.
      destruct (recentPeak c >=? recentTrend c) eqn:Hge.
      * rewrite Z.geb_leb in Hge. apply Z.leb_le in Hge.
        destruct (forallb (survives (yf_history w) (recentPeak c)
                             (recentTrend c)) (tickers c)) eqn:Hall.
        -- destruct (ticker_loop_survives (yf_history w) (recentPeak c)
                       (recentTrend c) (percentDropped c) (loggingEnabled c)
                       (tickers c) EmptyString Hall) as [message ->].
           set (status := if negb (message =? EmptyString)%string
                          then _ else _).
           assert (Hstatus : exists z, status = Return z).
           { unfold status. destruct (negb _).
             - rewrite send_message_result. eexists. reflexivity.
             - destruct (yf_probe w); eexists; reflexivity. }
           destruct Hstatus as [z ->].
           split; [now left|].
           split; [discriminate|]. intros [H|H]; [lia | discriminate].
        -- rewrite (ticker_loop_crashes _ _ _ _ _ _ _ Hall).
           split; [now right|]. split; [now right | reflexivity].
      * rewrite Z.geb_leb in Hge. apply Z.leb_gt in Hge.
        split; [now right|]. split; [now left | reflexivity].
Qed.

Lemma exit_status_is_1_only_after_an_exception_witness :
  exit_status {| config_json := inl "FileNotFoundError()";
                 logging_setup := None;
                 yf_history := sample_history;
                 yf_probe := None;
                 requests_post := sample_post 200 |} = 0
  /\ (exit_status (sample_world ["SHORT"] 7 7 None 200) = 1
      <-> 7 < 7
          \/ forallb (survives sample_history 7 7) ["SHORT"] = false).
Proof.
  split.
  - destruct (exit_status_is_1_only_after_an_exception
                {| config_json := inl "FileNotFoundError()";
                   logging_setup := None;
                   yf_history := sample_history;
                   yf_probe := None;
                   requests_post := sample_post 200 |}) as [Hload _].
    exact (Hload _ eq_refl).
  - destruct (exit_status_is_1_only_after_an_exception
                (sample_world ["SHORT"] 7 7 None 200)) as [_ Hloaded].
    destruct (Hloaded _ eq_refl) as [_ Hrun].
    exact (proj2 (Hrun (or_introl eq_refl))).
Defined.

(** ** The posts of a run *)

Lemma In_network e t : In e t -> is_network e = true -> In e (network t).
Proof. intros Hin Hnet. apply filter_In. now split. Qed.

Lemma main_network_aborted (w : world) (c : config) :
  config_json w = inr c ->
  (loggingEnabled c = true /\ logging_setup w <> None)
  \/ recentPeak c < recentTrend c ->
  network (trace (main w)) = [].
Proof.
  intros Hcfg Habort. unfold main. rewrite Hcfg. cbv zeta.
  destruct Habort as [[Hon Hsetup]|Hlt].
  - rewrite Hon. destruct (logging_setup w); [reflexivity | congruence].
  - replace (recentPeak c >=? recentTrend c) with false
      by (symmetry; rewrite Z.geb_leb; now apply Z.leb_gt).
    destruct (loggingEnabled c); [destruct (logging_setup w)|]; reflexivity.
Qed.

(** X17.  Whatever happens in a run, a post that [main] makes goes to the
    address of the configured bot, for the configured chat, and its text is
    never empty: it is the message of the detector, posted only when it is
    not empty, or the report of the outage. *)
Theorem main_posts_only_meaningful_text
    (w : world) (c : config) uri chat_id text :
  config_json w = inr c ->
  In (Post uri chat_id text) (trace (main w)) ->
  uri = bot_uri (telegramBotId c)
  /\ chat_id = telegramChatId c
  /\ text <> EmptyString.
Proof.
  intros Hcfg Hin. apply In_network in Hin; [|reflexivity].
  destruct (loggingEnabled c) eqn:Hon;
    [destruct (logging_setup w) as [err|] eqn:Hsetup|].
  1: { rewrite (main_network_aborted w c Hcfg) in Hin; [destruct Hin|].
       left. split; [exact Hon | congruence]. }
  all: assert (Hlogging : loggingEnabled c = false \/ logging_setup w = None)
         by (auto).
  all: destruct (Z.lt_ge_cases (recentPeak c) (recentTrend c)) as [Hlt|Hge];
         [rewrite (main_network_aborted w c Hcfg) in Hin;
            [destruct Hin | now right]|].
  all: rewrite (main_network w c Hcfg Hlogging Hge) in Hin;
       apply in_app_or in Hin; destruct Hin as [Hin|Hin];
       [ rewrite detect_network in Hin;
         match type of Hin with
         | In _ (network (trace (ticker_loop ?yf ?rp ?rt ?thr ?d ?ts ?m))) =>
             destruct (ticker_loop_network_front yf rp rt thr d ts m)
               as [n Hn]
         end;
         rewrite Hn in Hin; apply in_map_iff in Hin;
         destruct Hin as [t [Ht _]]; discriminate Ht
       | ].
  all: destruct (result (create_ticker_message _ _ _ _ _ _)) as [message|e];
         [|destruct Hin].
  all: destruct (negb (message =? EmptyString)%string) eqn:Hne.
  all: try (destruct Hin as [Hin|[]]; injection Hin as <- <- <-;
            split; [reflexivity|]; split; [reflexivity|];
            apply negb_true_iff in Hne; now apply String.eqb_neq).
  all: destruct Hin as [Hin|Hin]; [discriminate Hin|];
       destruct (yf_probe w) as [err'|]; [|destruct Hin];
       destruct Hin as [Hin|[]]; injection Hin as <- <- <-;
       split; [reflexivity|]; split; [reflexivity|]; discriminate.
Qed.

Lemma main_posts_only_meaningful_text_witness :
  In (Post "https://api.telegram.org/botbot/sendMessage" "chat"
        ("TICKER dropped 20.0%" ++ newline))
     (trace (main (sample_world ["TICKER"] 30 2 None 200)))
  /\ "TICKER dropped 20.0%" ++ newline <> EmptyString.
Proof.
  assert (Hin : In (Post "https://api.telegram.org/botbot/sendMessage" "chat"
                      ("TICKER dropped 20.0%" ++ newline))
                   (trace (main (sample_world ["TICKER"] 30 2 None 200))))
    by (right; right; now left).
  split; [exact Hin|].
  exact (proj2 (proj2 (main_posts_only_meaningful_text
                         (sample_world ["TICKER"] 30 2 None 200)
                         (sample_config ["TICKER"] 30 2) _ _ _
                         eq_refl Hin))).
Defined.
